(** * SolanaBot: the worker control loop, the token-drop detector and the
      worker pool, embedded from [src/worker.ts], [src/bot.ts] and the pool
      utilities, with the properties of their specification.

    Numbers of the program (JS [number]) are modelled as rationals [Q].
    Halving and the comparisons of two numbers are the same there as on
    doubles; the sum [CURRENT_SPENDINGS + balance_change] and the products
    are exact in [Q], where the program rounds them, and no statement below
    depends on the value of a sum.
    Asynchronous code is modelled the way Node runs it: every event (an
    incoming message, a timer, the completion of an awaited call) runs its
    continuation to the next [await]; the state records the program point
    where a control loop is suspended.  [Worker.step] is the worker that
    runs one control loop; [Worker.turn] is the worker as it is, with one
    loop per [buy] message. *)

From Stdlib Require Import QArith Qpower Qfield ZArith List String Bool.
From Stdlib Require Import Lia Lqa Arith.
Import ListNotations.

(* ================================================================== *)
(** ** The worker ([src/worker.ts]) *)
(* ================================================================== *)

Module Worker.

Local Open Scope Q_scope.

(** The strict comparison [x < y] of two numbers, as a boolean. *)
Definition Qltb (x y : Q) : bool := negb (Qle_bool y x).

(** Module constants. *)
Definition SLIPPAGE : Q := 3 # 10.
Definition MIN_BUY_THRESHOLD : Q := 1 # 100000.
Definition MIN_BALANCE_THRESHOLD : Q := 1 # 1000.
(** [LAMPORTS_PER_SOL] of [@solana/web3.js]. *)
Definition LAMPORTS_PER_SOL : Q := 1000000000 # 1.

(** [WORKER_CONFIG.inputs] and [WORKER_CONFIG]. *)
Record Inputs := mkInputs {
  start_buy : Q;
  mcap_threshold : Q;
  spend_limit : Q;
  buy_interval : Q
}.

Record WorkerConfig := mkWorkerConfig {
  id : Z;
  inputs : Inputs
}.

(** [common.TokenMeta]; [raydium_pool] is [null] or a pool address. The
    [mint] field is an address by type. *)
Record TokenMeta := mkTokenMeta {
  mint : string;
  symbol : string;
  usd_market_cap : Q;
  raydium_pool : option string
}.

(** The values [MINT_METADATA] can hold: the control loop tells apart
    [undefined], [null], an object without keys, and a metadata object. *)
Inductive JsMeta :=
| Undefined
| Null
| EmptyObject
| Meta (m : TokenMeta).

(** The token balance returned by [trade.get_token_balance]. *)
Record TokenAmount := mkTokenAmount {
  amount : Z;
  uiAmount : option Q
}.

Definition Signature := string.
Definition Err := string.

(** Modelled from the spec: [common.normal_random(mean, std)] is not in
    the sources; it draws from the normal distribution centered on [mean]
    with standard deviation [std].  The standard normal deviate [z] of the
    draw is supplied by the environment. *)
Definition normal_random (mean std z : Q) : Q := mean + std * z.

(** Status lines pushed to [MESSAGE_BUFFER] or posted to the main thread
    (the [[Worker id]] tag and the number formatting are left out). *)
Inductive Line :=
| LBuying
| LErrorBalanceChange (e : Err)
| LBought (amt : Q) (sym : option string) (sig : Signature)
| LErrorBuying (e : Err)
| LStartedSelling
| LNoTokens
| LSold (ui : Q) (sig : Signature)
| LErrorSelling (e : Err)
| LThresholdReached
| LSpendLimitReached
| LMetaNotAvailable
| LSleeping (secs : Q)
| LFinished
| LReceivedSell
| LReceivedCollect
| LStopped.

(** What the worker does to the outside world, in order. *)
Inductive Effect :=
| PostMessage (ls : list Line)
| CallNormalRandom (mean std : Q)
| CallBuyToken (amt : Q) (slippage : Q)
| CallGetBalanceChange (sig : Signature)
| CallGetTokenBalance (mint : string)
| CallSellToken (bal : TokenAmount) (slippage : Q)
| SetTimeout (sleep_id : nat) (secs : Q)
| ClearTimeout (sleep_id : nat)
| ProcessExit (code : Z)
| UnhandledRejection (e : Err).

(** The object built by [sleep]: its timer and whether its promise is
    resolved.  [CANCEL_SLEEP] holds the [cancel] closure of one of them. *)
Inductive Timer :=
| Pending (secs : Q)
| Cleared
| Fired.

Record SleepCell := mkSleepCell {
  timer : Timer;
  resolved : bool
}.

(** Where the control loop is suspended. *)
Inductive ProgramPoint :=
| Idle                                   (* no [buy] command received yet *)
| AwaitBuyToken (amt : Q)                (* [await trade.buy_token] *)
| AwaitBalanceChange (amt : Q) (sig : Signature)
| Sleeping (sleep_id : nat)              (* [await promise] of [sleep] *)
| AwaitTokenBalance                      (* [await trade.get_token_balance] *)
| AwaitSellToken (bal : TokenAmount)     (* [await trade.sell_token] *)
| Exited (code : Z)                      (* [process.exit] *)
| Crashed.                               (* exception out of the handler:
                                            the thread ends, exit code 1 *)

(** The module-level variables of the worker, the sleep objects it
    created, its program point and its effects so far. *)
Record State := mkState {
  IS_DONE : bool;
  CURRENT_SPENDINGS : Q;
  CURRENT_BUY_AMOUNT : Q;
  IS_SECOND_BUY : bool;
  START_SELL : bool;
  CANCEL_SLEEP : option nat;
  MINT_METADATA : JsMeta;
  MESSAGE_BUFFER : list Line;
  sleeps : list SleepCell;
  pc : ProgramPoint;
  effects : list Effect
}.

Definition init : State :=
  mkState false 0 0 false false None Undefined [] [] Idle [].

Definition set_IS_DONE (v : bool) (s : State) : State :=
  mkState v (CURRENT_SPENDINGS s) (CURRENT_BUY_AMOUNT s) (IS_SECOND_BUY s)
    (START_SELL s) (CANCEL_SLEEP s) (MINT_METADATA s) (MESSAGE_BUFFER s)
    (sleeps s) (pc s) (effects s).

Definition set_CURRENT_SPENDINGS (v : Q) (s : State) : State :=
  mkState (IS_DONE s) v (CURRENT_BUY_AMOUNT s) (IS_SECOND_BUY s)
    (START_SELL s) (CANCEL_SLEEP s) (MINT_METADATA s) (MESSAGE_BUFFER s)
    (sleeps s) (pc s) (effects s).

Definition set_CURRENT_BUY_AMOUNT (v : Q) (s : State) : State :=
  mkState (IS_DONE s) (CURRENT_SPENDINGS s) v (IS_SECOND_BUY s)
    (START_SELL s) (CANCEL_SLEEP s) (MINT_METADATA s) (MESSAGE_BUFFER s)
    (sleeps s) (pc s) (effects s).

Definition set_IS_SECOND_BUY (v : bool) (s : State) : State :=
  mkState (IS_DONE s) (CURRENT_SPENDINGS s) (CURRENT_BUY_AMOUNT s) v
    (START_SELL s) (CANCEL_SLEEP s) (MINT_METADATA s) (MESSAGE_BUFFER s)
    (sleeps s) (pc s) (effects s).

Definition set_START_SELL (v : bool) (s : State) : State :=
  mkState (IS_DONE s) (CURRENT_SPENDINGS s) (CURRENT_BUY_AMOUNT s)
    (IS_SECOND_BUY s) v (CANCEL_SLEEP s) (MINT_METADATA s) (MESSAGE_BUFFER s)
    (sleeps s) (pc s) (effects s).

Definition set_CANCEL_SLEEP (v : option nat) (s : State) : State :=
  mkState (IS_DONE s) (CURRENT_SPENDINGS s) (CURRENT_BUY_AMOUNT s)
    (IS_SECOND_BUY s) (START_SELL s) v (MINT_METADATA s) (MESSAGE_BUFFER s)
    (sleeps s) (pc s) (effects s).

Definition set_MINT_METADATA (v : JsMeta) (s : State) : State :=
  mkState (IS_DONE s) (CURRENT_SPENDINGS s) (CURRENT_BUY_AMOUNT s)
    (IS_SECOND_BUY s) (START_SELL s) (CANCEL_SLEEP s) v (MESSAGE_BUFFER s)
    (sleeps s) (pc s) (effects s).

Definition set_MESSAGE_BUFFER (v : list Line) (s : State) : State :=
  mkState (IS_DONE s) (CURRENT_SPENDINGS s) (CURRENT_BUY_AMOUNT s)
    (IS_SECOND_BUY s) (START_SELL s) (CANCEL_SLEEP s) (MINT_METADATA s) v
    (sleeps s) (pc s) (effects s).

Definition set_sleeps (v : list SleepCell) (s : State) : State :=
  mkState (IS_DONE s) (CURRENT_SPENDINGS s) (CURRENT_BUY_AMOUNT s)
    (IS_SECOND_BUY s) (START_SELL s) (CANCEL_SLEEP s) (MINT_METADATA s)
    (MESSAGE_BUFFER s) v (pc s) (effects s).

Definition set_pc (v : ProgramPoint) (s : State) : State :=
  mkState (IS_DONE s) (CURRENT_SPENDINGS s) (CURRENT_BUY_AMOUNT s)
    (IS_SECOND_BUY s) (START_SELL s) (CANCEL_SLEEP s) (MINT_METADATA s)
    (MESSAGE_BUFFER s) (sleeps s) v (effects s).

(** [MESSAGE_BUFFER.push(l)]. *)
Definition push (l : Line) (s : State) : State :=
  set_MESSAGE_BUFFER (MESSAGE_BUFFER s ++ [l]) s.

(** Record one effect. *)
Definition emit (e : Effect) (s : State) : State :=
  mkState (IS_DONE s) (CURRENT_SPENDINGS s) (CURRENT_BUY_AMOUNT s)
    (IS_SECOND_BUY s) (START_SELL s) (CANCEL_SLEEP s) (MINT_METADATA s)
    (MESSAGE_BUFFER s) (sleeps s) (pc s) (effects s ++ [e]).

(** *** [sleep] and its [cancel] closure *)

(** [clearTimeout] stops a pending timer and does nothing to one that has
    fired or was cleared; [resolve()] releases the waiter. *)
Definition cancel_cell (c : SleepCell) : SleepCell :=
  mkSleepCell
    (match timer c with Pending _ => Cleared | t => t end)
    true.

Fixpoint update_cell (i : nat) (f : SleepCell -> SleepCell)
  (l : list SleepCell) : list SleepCell :=
  match l, i with
  | [], _ => []
  | c :: l', O => f c :: l'
  | c :: l', S i' => c :: update_cell i' f l'
  end.

Definition cell_resolved (i : nat) (l : list SleepCell) : bool :=
  match nth_error l i with
  | Some c => resolved c
  | None => true
  end.

Definition cell_pending (i : nat) (l : list SleepCell) : bool :=
  match nth_error l i with
  | Some c => match timer c with Pending _ => true | _ => false end
  | None => false
  end.

(** *** The end of [control_loop] and of the [buy] handler *)

(** The last lines of [control_loop] and what the [buy] handler does when
    it returns: post the buffer, post [Finished], [process.exit(0)]. *)
Definition finish (s : State) : State :=
  set_pc (Exited 0%Z)
    (emit (ProcessExit 0%Z)
       (emit (PostMessage [LFinished])
          (emit (PostMessage (MESSAGE_BUFFER s)) s))).

(** [sell], up to its first [await].  Reading [MINT_METADATA.mint] of
    [undefined] or [null], or building a [PublicKey] from the missing field
    of an empty object, throws into the [catch]. *)
Definition sell_start (s : State) : State :=
  let s := push LStartedSelling s in
  match MINT_METADATA s with
  | Meta m => set_pc AwaitTokenBalance (emit (CallGetTokenBalance (mint m)) s)
  | _ => finish (push (LErrorSelling "TypeError"%string) s)
  end.

(** [sell], resumed with the result of [trade.get_token_balance]. *)
Definition sell_on_balance (r : TokenAmount + Err) (s : State) : State :=
  match r with
  | inr e => finish (push (LErrorSelling e) s)
  | inl bal =>
      match uiAmount bal with
      | None => finish (push LNoTokens s)
      | Some ui =>
          if Qeq_bool ui 0 then finish (push LNoTokens s)
          else
            match MINT_METADATA s with
            | Undefined | Null => finish (push (LErrorSelling "TypeError"%string) s)
            | EmptyObject => finish (push (LSold ui ""%string) s)
            | Meta m =>
                match raydium_pool m with
                | None =>
                    set_pc (AwaitSellToken bal)
                      (emit (CallSellToken bal SLIPPAGE) s)
                | Some _ => finish (push (LSold ui ""%string) s)
                end
            end
      end
  end.

(** [sell], resumed with the result of [trade.sell_token]. *)
Definition sell_on_sold (bal : TokenAmount) (r : Signature + Err)
  (s : State) : State :=
  match r with
  | inr e => finish (push (LErrorSelling e) s)
  | inl sig =>
      match uiAmount bal with
      | Some ui => finish (push (LSold ui sig) s)
      | None => finish (push (LErrorSelling "TypeError"%string) s)
      end
  end.

(** After the [while]: [if (START_SELL) await sell();] and the end. *)
Definition after_loop (s : State) : State :=
  if START_SELL s then sell_start s else finish s.

(** *** One cycle of [control_loop] *)

(** The pacing part of a cycle: draw the sleep, post the buffer, and
    sleep unless [IS_DONE] was set meanwhile. *)
Definition pacing (cfg : WorkerConfig) (z : Q) (s : State) : State :=
  let sleep_for := normal_random (buy_interval (inputs cfg)) 5 z in
  let s := emit (CallNormalRandom (buy_interval (inputs cfg)) 5) s in
  let s := push (LSleeping sleep_for) s in
  let s := emit (PostMessage (MESSAGE_BUFFER s)) s in
  if IS_DONE s then
    after_loop (set_MESSAGE_BUFFER [] s)
  else
    let i := List.length (sleeps s) in
    set_pc (Sleeping i)
      (set_CANCEL_SLEEP (Some i)
         (set_sleeps (sleeps s ++ [mkSleepCell (Pending sleep_for) false])
            (emit (SetTimeout i sleep_for) s))).

(** [buy], up to [await trade.buy_token]. *)
Definition buy_start (cfg : WorkerConfig) (z : Q) (s : State) : State :=
  let s := push LBuying s in
  let std := CURRENT_BUY_AMOUNT s * (1 # 10) in
  let amt := normal_random (start_buy (inputs cfg)) std z in
  let s := emit (CallNormalRandom (start_buy (inputs cfg)) std) s in
  set_pc (AwaitBuyToken amt) (emit (CallBuyToken amt SLIPPAGE) s).

(** The bookkeeping of a successful buy. *)
Definition buy_bookkeeping (balance_change : Q) (s : State) : State :=
  let s := set_CURRENT_SPENDINGS (CURRENT_SPENDINGS s + balance_change) s in
  let s := if IS_SECOND_BUY s
           then set_CURRENT_BUY_AMOUNT (CURRENT_BUY_AMOUNT s / 2) s
           else s in
  set_IS_SECOND_BUY (negb (IS_SECOND_BUY s)) s.

(** [buy], resumed with the result of [trade.buy_token]; a failure goes to
    the outer [catch] and the cycle goes on to its pacing. *)
Definition buy_on_bought (cfg : WorkerConfig) (z : Q) (amt : Q)
  (r : Signature + Err) (s : State) : State :=
  match r with
  | inl sig =>
      set_pc (AwaitBalanceChange amt sig) (emit (CallGetBalanceChange sig) s)
  | inr e => pacing cfg z (push (LErrorBuying e) s)
  end.

(** [buy], resumed with the result of [trade.get_balance_change]. *)
Definition buy_on_balance_change (cfg : WorkerConfig) (z : Q) (amt : Q)
  (sig : Signature) (r : Q + Err) (s : State) : State :=
  let '(balance_change, s) :=
    match r with
    | inl v => (v, s)
    | inr e => (amt, push (LErrorBalanceChange e) s)
    end in
  let s := buy_bookkeeping balance_change s in
  let s :=
    match MINT_METADATA s with
    | Undefined | Null => push (LErrorBuying "TypeError"%string) s
    | EmptyObject => push (LBought amt None sig) s
    | Meta m => push (LBought amt (Some (symbol m)) sig) s
    end in
  pacing cfg z s.

(** The [while (!IS_DONE)] test and the decision of one cycle. *)
Definition loop_top (cfg : WorkerConfig) (z : Q) (s : State) : State :=
  if IS_DONE s then after_loop s
  else
    match MINT_METADATA s with
    | Meta m =>
        if Qle_bool (mcap_threshold (inputs cfg)) (usd_market_cap m) then
          after_loop (set_START_SELL true (push LThresholdReached s))
        else if (Qltb (CURRENT_SPENDINGS s)
                   (spend_limit (inputs cfg) * LAMPORTS_PER_SOL)
                 && Qltb MIN_BUY_THRESHOLD (CURRENT_BUY_AMOUNT s))%bool
        then buy_start cfg z s
        else pacing cfg z (push LSpendLimitReached s)
    | _ => pacing cfg z (push LMetaNotAvailable s)
    end.

(** The loop resumed after its sleep. *)
Definition wake (cfg : WorkerConfig) (z : Q) (s : State) : State :=
  loop_top cfg z (set_MESSAGE_BUFFER [] s).

(** *** The message handler of [main] *)

Inductive Command :=
| CmdBuy
| CmdSell
| CmdCollect
| CmdStop
| CmdMint (data : JsMeta)
| CmdOther (name : string).

(** [CANCEL_SLEEP()].  Calling it while it is still [undefined] throws out
    of the handler.  Otherwise the timer of that sleep is cleared and its
    promise resolved, and a loop waiting on it resumes. *)
Definition call_CANCEL_SLEEP (cfg : WorkerConfig) (z : Q) (s : State)
  : State :=
  match CANCEL_SLEEP s with
  | None =>
      set_pc Crashed
        (emit (UnhandledRejection "TypeError: CANCEL_SLEEP is not a function"%string) s)
  | Some i =>
      let waiting :=
        match pc s with
        | Sleeping j => (Nat.eqb i j && negb (cell_resolved i (sleeps s)))%bool
        | _ => false
        end in
      let s := set_sleeps (update_cell i cancel_cell (sleeps s))
                 (emit (ClearTimeout i) s) in
      if waiting then wake cfg z s else s
  end.

(** The message handler of [main], for the worker with one loop: a [buy]
    is handled when no loop runs yet.  The handler itself has no such
    guard: [handle] below is the handler as it is, a [buy] received while
    a loop runs starting another loop. *)
Definition on_message (cfg : WorkerConfig) (z : Q) (c : Command) (s : State)
  : option State :=
  match c with
  | CmdBuy =>
      match pc s with
      | Idle =>
          Some (loop_top cfg z
                  (set_CURRENT_BUY_AMOUNT (start_buy (inputs cfg)) s))
      | _ => None
      end
  | CmdSell =>
      if START_SELL s then Some s
      else Some (set_START_SELL true
                   (set_IS_DONE true (emit (PostMessage [LReceivedSell]) s)))
  | CmdCollect =>
      if IS_DONE s then Some s
      else Some (call_CANCEL_SLEEP cfg z
                   (set_IS_DONE true
                      (emit (PostMessage [LReceivedCollect]) s)))
  | CmdStop =>
      if IS_DONE s then Some s
      else Some (call_CANCEL_SLEEP cfg z
                   (set_IS_DONE true (emit (PostMessage [LStopped]) s)))
  | CmdMint data => Some (set_MINT_METADATA data s)
  | CmdOther _ => Some s
  end.

(** *** The events of the worker and its step function *)

Inductive Event :=
| EvMessage (c : Command)
| EvTimeout
| EvBuyToken (r : Signature + Err)
| EvBalanceChange (r : Q + Err)
| EvTokenBalance (r : TokenAmount + Err)
| EvSellToken (r : Signature + Err).

Definition terminated (s : State) : bool :=
  match pc s with
  | Exited _ | Crashed => true
  | _ => false
  end.

(** One turn of the event loop of the worker with one loop.  [None]: the
    event cannot happen in this state (no such call or timer is pending, or
    the process has ended), or it is a second [buy] message: the worker
    then runs two loops and is no longer this one, but the process of
    [turn] below, which agrees with [step] up to that message. *)
Definition step (cfg : WorkerConfig) (z : Q) (e : Event) (s : State)
  : option State :=
  if terminated s then None
  else
    match e, pc s with
    | EvMessage c, _ => on_message cfg z c s
    | EvTimeout, Sleeping i =>
        if cell_pending i (sleeps s) then
          Some (wake cfg z
                  (set_sleeps
                     (update_cell i (fun _ => mkSleepCell Fired true)
                        (sleeps s)) s))
        else None
    | EvBuyToken r, AwaitBuyToken amt => Some (buy_on_bought cfg z amt r s)
    | EvBalanceChange r, AwaitBalanceChange amt sig =>
        Some (buy_on_balance_change cfg z amt sig r s)
    | EvTokenBalance r, AwaitTokenBalance => Some (sell_on_balance r s)
    | EvSellToken r, AwaitSellToken bal => Some (sell_on_sold bal r s)
    | _, _ => None
    end.

(** A run: the events of the list, in order, each with the deviate of the
    random draw its continuation may make. *)
Fixpoint exec (cfg : WorkerConfig) (es : list (Q * Event)) (s : State)
  : option State :=
  match es with
  | [] => Some s
  | (z, e) :: es' =>
      match step cfg z e s with
      | Some s' => exec cfg es' s'
      | None => None
      end
  end.

(** Runs from the initial state of the module. *)
Inductive reachable (cfg : WorkerConfig) : State -> Prop :=
| reach_init : reachable cfg init
| reach_step : forall s z e s',
    reachable cfg s -> step cfg z e s = Some s' -> reachable cfg s'.

(** *** Counting effects *)

Definition is_buy (e : Effect) : bool :=
  match e with CallBuyToken _ _ => true | _ => false end.

Definition is_sell (e : Effect) : bool :=
  match e with CallSellToken _ _ => true | _ => false end.

Definition is_sell_attempt (e : Effect) : bool :=
  match e with CallGetTokenBalance _ => true | _ => false end.

Definition is_set_timeout (e : Effect) : bool :=
  match e with SetTimeout _ _ => true | _ => false end.

Definition is_fault (e : Effect) : bool :=
  match e with UnhandledRejection _ => true | _ => false end.

Definition count (p : Effect -> bool) (s : State) : nat :=
  List.length (filter p (effects s)).

(** Calls of [trade.buy_token], of [trade.sell_token], invocations of
    [sell], sleeps started and exceptions out of the handler, so far. *)
Definition buys (s : State) : nat := count is_buy s.
Definition sells (s : State) : nat := count is_sell s.
Definition sell_attempts (s : State) : nat := count is_sell_attempt s.
Definition sleeps_started (s : State) : nat := count is_set_timeout s.
Definition faults (s : State) : nat := count is_fault s.

(** The guard of the buy branch of a cycle. *)
Definition buy_guard (cfg : WorkerConfig) (s : State) : Prop :=
  CURRENT_SPENDINGS s < spend_limit (inputs cfg) * LAMPORTS_PER_SOL
  /\ MIN_BUY_THRESHOLD < CURRENT_BUY_AMOUNT s.


(** The program points of the sell and of the end of the process. *)
Definition sell_phase (p : ProgramPoint) : bool :=
  match p with
  | AwaitTokenBalance | AwaitSellToken _ | Exited _ | Crashed => true
  | _ => false
  end.





(** The calls of [trade.sell_token] still possible in the sell. *)
Definition sell_budget (p : ProgramPoint) : nat :=
  match p with
  | AwaitTokenBalance => 1
  | _ => 0
  end.

(** The state a run from [init] ends in ([init] if it cannot happen). *)
Definition state_after (cfg : WorkerConfig) (es : list (Q * Event)) : State :=
  match exec cfg es init with
  | Some s => s
  | None => init
  end.


(** The mean and the standard deviation of the last random draw. *)
Fixpoint last_draw (l : list Effect) : option (Q * Q) :=
  match l with
  | [] => None
  | e :: l' =>
      match last_draw l' with
      | Some d => Some d
      | None =>
          match e with
          | CallNormalRandom mean std => Some (mean, std)
          | _ => None
          end
      end
  end.

(** *** A sample configuration and sample runs *)

(** Start buy 1, valuation threshold 50000, spend limit 1, interval 30. *)
Definition sample_cfg : WorkerConfig :=
  mkWorkerConfig 1 (mkInputs 1 50000 1 30).

Definition sample_meta (cap : Q) (pool : option string) : JsMeta :=
  Meta (mkTokenMeta "M" "FOO" cap pool).


(** The asset is known, two buys succeed, and the second sleep ends: the
    third buy is started. *)
Definition two_buys_run : list (Q * Event) :=
  [ (0, EvMessage (CmdMint (sample_meta 100 None)));
    (0, EvMessage CmdBuy);
    (0, EvBuyToken (inl "sig1"%string));
    (0, EvBalanceChange (inl 1));
    (0, EvTimeout);
    (0, EvBuyToken (inl "sig2"%string));
    (0, EvBalanceChange (inl 1));
    (0, EvTimeout) ].

(** One buy, one sleep; the loop sleeps for the second time. *)
Definition sleeping_run : list (Q * Event) :=
  [ (0, EvMessage (CmdMint (sample_meta 100 None)));
    (0, EvMessage CmdBuy);
    (0, EvBuyToken (inl "sig1"%string));
    (0, EvBalanceChange (inl 1)) ].

(** A [stop] arrives while the second buy is awaited. *)
Definition stop_during_buy_run : list (Q * Event) :=
  sleeping_run ++ [ (0, EvTimeout); (0, EvMessage CmdStop) ].

(** The valuation is over the threshold and the asset has a pool; the
    worker holds 100 tokens. *)
Definition pool_sell_run : list (Q * Event) :=
  [ (0, EvMessage (CmdMint (sample_meta 60000 (Some "pool"%string))));
    (0, EvMessage CmdBuy);
    (0, EvTokenBalance (inl (mkTokenAmount 100000000 (Some 100)))) ].

(** *** The set-up of [main] and of the module *)

(** The endpoint of [global.connection]: [process.env.RPC] for an even
    [WORKER_CONFIG.id], [process.env.RPC_OTHER] otherwise. *)
Inductive Endpoint :=
| RPC
| RPC_OTHER.

Definition connection_endpoint (worker_id : Z) : Endpoint :=
  if (Z.rem worker_id 2 =? 0)%Z then RPC else RPC_OTHER.

(** *** More observations on states and events *)

(** The calls of the [trade] module. *)
Definition is_trade (e : Effect) : bool :=
  match e with
  | CallBuyToken _ _ | CallGetBalanceChange _ | CallGetTokenBalance _
  | CallSellToken _ _ => true
  | _ => false
  end.

Definition trades (s : State) : nat := count is_trade s.




(** The buys a state may have made beyond the sleeps it has started. *)
Definition slack (p : ProgramPoint) : nat :=
  match p with
  | Idle | Sleeping _ => 0
  | _ => 1
  end.

(** *** What a step adds to the effects *)

(** Effects other than calls of [trade] and new timers. *)
Definition is_quiet (e : Effect) : bool :=
  match e with
  | PostMessage _ | CallNormalRandom _ _ | ProcessExit _ | ClearTimeout _
  | UnhandledRejection _ => true
  | _ => false
  end.

(** [r] has the effects of [s], then quiet ones, then those of [tail]. *)
Definition extends (s r : State) (tail : list Effect) : Prop :=
  exists d,
    forallb is_quiet d = true /\ effects r = effects s ++ d ++ tail.

(** The ways the loop goes on without a buy: it ends the process, it
    starts the sell, or it starts a sleep. *)
Inductive Rest (s r : State) : Prop :=
| RestExit :
    pc r = Exited 0 -> extends s r [] ->
    (exists pre ls,
        effects r
        = pre ++ [PostMessage ls; PostMessage [LFinished]; ProcessExit 0]) ->
    Rest s r
| RestSell (m : TokenMeta) :
    pc r = AwaitTokenBalance -> MINT_METADATA r = Meta m ->
    extends s r [CallGetTokenBalance (mint m)] -> Rest s r
| RestSleep (i : nat) (secs : Q) :
    pc r = Sleeping i -> extends s r [SetTimeout i secs] -> Rest s r.

(** The loop goes on with a buy. *)
Definition Buy (cfg : WorkerConfig) (s r : State) : Prop :=
  exists amt m,
    pc r = AwaitBuyToken amt /\ MINT_METADATA r = Meta m
    /\ buy_guard cfg r /\ IS_DONE r = false
    /\ extends s r [CallBuyToken amt SLIPPAGE].




(** What a step can be, by its program points and its effects. *)
Definition step_shape (cfg : WorkerConfig) (s s' : State) : Prop :=
  Rest s s'
  \/ (Buy cfg s s' /\ slack (pc s) = 0%nat)
  \/ (pc s' = pc s /\ extends s s' [])
  \/ (pc s' = Crashed /\ extends s s' [])
  \/ (exists amt sig,
        pc s = AwaitBuyToken amt /\ pc s' = AwaitBalanceChange amt sig
        /\ extends s s' [CallGetBalanceChange sig])
  \/ (exists bal,
        pc s = AwaitTokenBalance /\ pc s' = AwaitSellToken bal
        /\ extends s s' [CallSellToken bal SLIPPAGE]).

(** *** The worker with any number of control loops *)

(** The [buy] handler of [main] has no guard: every [buy] message sets
    [CURRENT_BUY_AMOUNT] to [start_buy] and runs another [control_loop]
    beside those that are suspended.  The loops share the module
    variables, each has its own program point, and the first of them to
    end ends the process.  [step] is the worker with one loop; what
    follows is the worker with as many as it received [buy] messages. *)

(** The worker thread: the module variables, sleep objects and effects
    ([pc] of [vars] is the program point of the loop that ran last, or the
    end of the process), and the program points of the loops, in the order
    of their [buy] messages. *)
Record Process := mkProcess {
  vars : State;
  loops : list ProgramPoint
}.

Definition boot : Process := mkProcess init [].

(** The program point of loop [k] replaced. *)
Fixpoint set_loop (k : nat) (p : ProgramPoint) (l : list ProgramPoint)
  : list ProgramPoint :=
  match l, k with
  | [], _ => []
  | _ :: l', O => p :: l'
  | q :: l', S k' => q :: set_loop k' p l'
  end.

(** The loop that awaits the promise of sleep [i]. *)
Fixpoint waiter (i : nat) (l : list ProgramPoint) : option nat :=
  match l with
  | [] => None
  | Sleeping j :: l' =>
      if Nat.eqb i j then Some O else option_map S (waiter i l')
  | _ :: l' => option_map S (waiter i l')
  end.

(** Loop [k], suspended at [p], goes on with [f] to its next [await]. *)
Definition resume (k : nat) (p : ProgramPoint) (f : State -> State)
  (t : Process) : Process :=
  let s := f (set_pc p (vars t)) in
  mkProcess s (set_loop k (pc s) (loops t)).

(** [CANCEL_SLEEP()] with several loops: the timer of the sleep created
    last is cleared and its promise resolved; the loop that awaits it, if
    it is still waiting, resumes.  The other loops sleep on. *)
Definition cancel_sleep (cfg : WorkerConfig) (z : Q) (t : Process)
  : Process :=
  match CANCEL_SLEEP (vars t) with
  | None =>
      mkProcess
        (set_pc Crashed
           (emit (UnhandledRejection
                    "TypeError: CANCEL_SLEEP is not a function"%string)
              (vars t)))
        (loops t)
  | Some i =>
      let released := negb (cell_resolved i (sleeps (vars t))) in
      let t' :=
        mkProcess
          (set_sleeps (update_cell i cancel_cell (sleeps (vars t)))
             (emit (ClearTimeout i) (vars t)))
          (loops t) in
      match waiter i (loops t) with
      | Some k => if released then resume k (Sleeping i) (wake cfg z) t'
                  else t'
      | None => t'
      end
  end.

(** The message handler of [main], as it is: a [buy] always starts a
    loop. *)
Definition handle (cfg : WorkerConfig) (z : Q) (c : Command) (t : Process)
  : Process :=
  match c with
  | CmdBuy =>
      let s := loop_top cfg z
                 (set_CURRENT_BUY_AMOUNT (start_buy (inputs cfg)) (vars t)) in
      mkProcess s (loops t ++ [pc s])
  | CmdSell =>
      if START_SELL (vars t) then t
      else mkProcess
             (set_START_SELL true
                (set_IS_DONE true
                   (emit (PostMessage [LReceivedSell]) (vars t))))
             (loops t)
  | CmdCollect =>
      if IS_DONE (vars t) then t
      else cancel_sleep cfg z
             (mkProcess
                (set_IS_DONE true
                   (emit (PostMessage [LReceivedCollect]) (vars t)))
                (loops t))
  | CmdStop =>
      if IS_DONE (vars t) then t
      else cancel_sleep cfg z
             (mkProcess
                (set_IS_DONE true (emit (PostMessage [LStopped]) (vars t)))
                (loops t))
  | CmdMint data => mkProcess (set_MINT_METADATA data (vars t)) (loops t)
  | CmdOther _ => t
  end.

(** What the event loop delivers: a message of the main thread, or the
    timer or the result [e] that loop [k] awaits. *)
Inductive Arrival :=
| Message (c : Command)
| Settled (k : nat) (e : Event).

(** One turn of the event loop of the process.  [None]: the process has
    ended, or loop [k] does not await [e]. *)
Definition turn (cfg : WorkerConfig) (z : Q) (a : Arrival) (t : Process)
  : option Process :=
  if terminated (vars t) then None
  else
    match a with
    | Message c => Some (handle cfg z c t)
    | Settled _ (EvMessage _) => None
    | Settled k e =>
        match nth_error (loops t) k with
        | None => None
        | Some p =>
            match step cfg z e (set_pc p (vars t)) with
            | Some s => Some (mkProcess s (set_loop k (pc s) (loops t)))
            | None => None
            end
        end
    end.

Fixpoint run (cfg : WorkerConfig) (es : list (Q * Arrival)) (t : Process)
  : option Process :=
  match es with
  | [] => Some t
  | (z, a) :: es' =>
      match turn cfg z a t with
      | Some t' => run cfg es' t'
      | None => None
      end
  end.

(** The states of the process, from the start of the module. *)
Inductive reached (cfg : WorkerConfig) : Process -> Prop :=
| reached_boot : reached cfg boot
| reached_turn : forall t z a t',
    reached cfg t -> turn cfg z a t = Some t' -> reached cfg t'.

(** The state a run of the process ends in ([boot] if it cannot
    happen). *)
Definition process_after (cfg : WorkerConfig) (es : list (Q * Arrival))
  : Process :=
  match run cfg es boot with
  | Some t => t
  | None => boot
  end.

Definition is_buy_command (a : Arrival) : bool :=
  match a with
  | Message CmdBuy => true
  | _ => false
  end.



(** The event of the one-loop worker that an arrival is. *)
Definition as_event (a : Arrival) : Event :=
  match a with
  | Message c => EvMessage c
  | Settled _ e => e
  end.

(** An event of the one-loop worker, as an arrival of the process: what
    is awaited is awaited by the first loop. *)
Definition as_arrival (e : Event) : Arrival :=
  match e with
  | EvMessage c => Message c
  | _ => Settled 0 e
  end.

Definition of_first_loop (es : list (Q * Event)) : list (Q * Arrival) :=
  map (fun ze => (fst ze, as_arrival (snd ze))) es.

(** The loops of a worker with one loop at most, by its program point,
    and the process of that worker in state [s]. *)
Definition live (p : ProgramPoint) : list ProgramPoint :=
  match p with
  | Idle => []
  | _ => [p]
  end.

Definition one_loop (s : State) : Process := mkProcess s (live (pc s)).

(** The [buy] messages of a run. *)
Definition buy_commands (es : list (Q * Arrival)) : nat :=
  List.length (filter (fun za => is_buy_command (snd za)) es).

(** A run of the process, as events of the one-loop worker. *)
Definition as_events (es : list (Q * Arrival)) : list (Q * Event) :=
  map (fun za => (fst za, as_event (snd za))) es.


Fixpoint total (f : ProgramPoint -> nat) (l : list ProgramPoint) : nat :=
  match l with
  | [] => 0
  | p :: l' => f p + total f l'
  end.

Definition awake (l : list ProgramPoint) : nat := total slack l.

Definition selling (l : list ProgramPoint) : nat :=
  total (fun p => if sell_phase p then 1 else 0)%nat l.

Definition sell_budgets (l : list ProgramPoint) : nat := total sell_budget l.

(** *** More sample runs *)

(** Start buy 2/100000, twice the floor: two successes bring the buy
    size to the floor. *)
Definition floor_cfg : WorkerConfig :=
  mkWorkerConfig 1 (mkInputs (2 # 100000) 50000 1 30).

(** Two successful buys of that worker, and the cycle after them, which
    skips the buy and sleeps. *)
Definition to_the_floor : list (Q * Arrival) := of_first_loop two_buys_run.

(** An asset by its address, valued over the threshold, without a pool:
    the first cycle observes the threshold and starts the sell. *)
Definition listed_meta : JsMeta :=
  Meta (mkTokenMeta "5oZvi4JNC85mJcB93vzotq3UTLR2Emroz87XtAUhP1Ng" "FOO"
          60000 None).

Definition threshold_run : list (Q * Arrival) :=
  [ (0, Message (CmdMint listed_meta)); (0, Message CmdBuy) ].

(** A second [buy] message arrives after two buys, or during the sell. *)
Definition second_buy_run : list (Q * Arrival) :=
  of_first_loop two_buys_run ++ [(0, Message CmdBuy)].

Definition second_sell_run : list (Q * Arrival) :=
  threshold_run ++ [(0, Message CmdBuy)].

End Worker.

(* ================================================================== *)
(** ** The token-drop detector ([wait_drop_sub]) *)
(* ================================================================== *)

Module Detector.

Local Open Scope string_scope.

(** A [web3.PublicKey], by its base58 text; [equals] is equality. *)
Definition PublicKey := string.

Definition programID : PublicKey :=
  "6EF8rrecthR5Dkzon8Nwu78hRvfCKubJ14M5uBEwF6P".
Definition metaplexProgramID : PublicKey :=
  "metaqbxxUerdq28cj1RbAWkYQm3ybzjb6a8bt518x1s".

(** [meta.data] of a decoded metadata instruction. *)
Record MetaData := mkMetaData {
  name : string;
  symbol : string
}.

(** An inner instruction: parsed (no [data], no [accounts]) or partially
    decoded. *)
Inductive Instruction :=
| ParsedInstruction (programId : PublicKey)
| PartiallyDecodedInstruction (programId : PublicKey)
    (accounts : list PublicKey) (data : string).

Definition programId_of (i : Instruction) : PublicKey :=
  match i with
  | ParsedInstruction p => p
  | PartiallyDecodedInstruction p _ _ => p
  end.

Record TokenBalance := mkTokenBalance {
  tb_mint : string
}.

Record AccountKey := mkAccountKey {
  pubkey : PublicKey;
  signer : bool
}.

Record TxMeta := mkTxMeta {
  postTokenBalances : option (list TokenBalance);
  innerInstructions : option (list (list Instruction))
}.

(** What [getParsedTransaction] returns when it returns an object;
    [message] stands for [tx.transaction.message] and holds its
    [accountKeys]. *)
Record ParsedTransaction := mkParsedTransaction {
  meta : option TxMeta;
  message : option (list AccountKey)
}.

(** How a block of statements ends: normally, or by an exception; either
    way with the value the variable [mint] has then. *)
Inductive Completion :=
| Normal (mint : option PublicKey)
| Throw (mint : option PublicKey).

(** [s.includes(t)]. *)
Definition includes (s t : string) : bool :=
  match String.index 0 t s with
  | Some _ => true
  | None => false
  end.

(** JS truthiness of a string. *)
Definition truthy (s : string) : bool := negb (String.eqb s "").

(** The two nested [for] loops, over any loop body. *)
Fixpoint for_instructions
  (body : Instruction -> option PublicKey -> Completion)
  (instructions : list Instruction) (mint : option PublicKey) : Completion :=
  match instructions with
  | [] => Normal mint
  | instruction :: rest =>
      match body instruction mint with
      | Normal mint' => for_instructions body rest mint'
      | Throw mint' => Throw mint'
      end
  end.

Fixpoint for_inner
  (body : Instruction -> option PublicKey -> Completion)
  (inner_instructions : list (list Instruction)) (mint : option PublicKey)
  : Completion :=
  match inner_instructions with
  | [] => Normal mint
  | inner :: rest =>
      match for_instructions body inner mint with
      | Normal mint' => for_inner body rest mint'
      | Throw mint' => Throw mint'
      end
  end.

(** [signers.some(({ pubkey }) => mint !== undefined && pubkey.equals(mint))]
    over [accountKeys.filter(key => key.signer)]. *)
Definition signed_by (keys : list AccountKey) (mint : option PublicKey)
  : bool :=
  existsb
    (fun key =>
       match mint with
       | Some m => String.eqb (pubkey key) m
       | None => false
       end)
    (filter signer keys).

(** The module-level state of the detector and its error log. *)
Record State := mkState {
  mint : option PublicKey;
  subscriptionID : option nat;
  errors : nat
}.

(** One log notification: [err], [logs], what [getParsedTransaction]
    gives for its signature ([None]: it throws; [Some None]: [null]), and
    whether [removeOnLogsListener] would succeed. *)
Record Notification := mkNotification {
  err : bool;
  logs : option (list string);
  fetched : option (option ParsedTransaction);
  removal_succeeds : bool
}.

(** [wait_drop_unsub]: remove the listener if there is one; forget the
    subscription when the removal succeeds, log when it fails. *)
Definition wait_drop_unsub (removal_ok : bool) (d : State) : State :=
  match subscriptionID d with
  | None => d
  | Some _ =>
      if removal_ok then mkState (mint d) None (errors d)
      else mkState (mint d) (subscriptionID d) (S (errors d))
  end.

Definition set_mint (m : option PublicKey) (d : State) : State :=
  mkState m (subscriptionID d) (errors d).

Definition log_error (d : State) : State :=
  mkState (mint d) (subscriptionID d) (S (errors d)).

Definition has_mint_to (logs : option (list string)) : bool :=
  match logs with
  | Some ls => existsb (String.eqb "Program log: Instruction: MintTo") ls
  | None => false
  end.

Section Callback.

(** The Metaplex deserializer behind [decode_metaplex_instr], giving the
    decoded data and the bytes read, or [None] when it throws; and
    [new web3.PublicKey(text)], [None] when it throws. *)
Variable decode_metaplex_instr : string -> option (MetaData * Z).
Variable new_PublicKey : string -> option PublicKey.

Variables token_name token_ticker : string.

(** The test on the decoded name and symbol. *)
Definition matches (m : MetaData) : bool :=
  (String.eqb (name m) token_name && includes (symbol m) token_ticker)%bool.

(** The body of the inner loop of the pool utilities' [wait_drop_sub]. *)
Definition visit (balances : list TokenBalance) (instruction : Instruction)
  (mint : option PublicKey) : Completion :=
  if negb (String.eqb (programId_of instruction) metaplexProgramID)
  then Normal mint
  else
    match instruction with
    | ParsedInstruction _ => Throw mint
    | PartiallyDecodedInstruction _ accounts data =>
        match decode_metaplex_instr data with
        | None => Throw mint
        | Some (m, bytes_read) =>
            if (bytes_read <=? 0)%Z then Normal mint
            else if matches m then
              match balances with
              | [] => Throw mint
              | b :: _ =>
                  if truthy (tb_mint b) then
                    match new_PublicKey (tb_mint b) with
                    | Some k => Normal (Some k)
                    | None => Throw mint
                    end
                  else Normal (nth_error accounts 1)
              end
            else Normal mint
        end
    end.

(** The body of the inner loop of [wait_drop_sub] in [bot.ts]. *)
Definition visit_bot (instruction : Instruction) (mint : option PublicKey)
  : Completion :=
  if negb (String.eqb (programId_of instruction) metaplexProgramID)
  then Normal mint
  else
    match instruction with
    | ParsedInstruction _ => Throw mint
    | PartiallyDecodedInstruction _ accounts data =>
        match decode_metaplex_instr data with
        | None => Throw mint
        | Some (m, bytes_read) =>
            if (bytes_read <=? 0)%Z then Normal mint
            else if matches m then Normal (nth_error accounts 1)
            else Normal mint
        end
    end.

(** What follows the loops: the signer test and the unsubscription. The
    boolean tells whether [wait_drop_unsub] was called. *)
Definition conclude (n : Notification) (keys : list AccountKey)
  (c : Completion) (d : State) : State * bool :=
  match c with
  | Throw mint' => (log_error (set_mint mint' d), false)
  | Normal mint' =>
      let d := set_mint mint' d in
      if signed_by keys mint'
      then (wait_drop_unsub (removal_succeeds n) d, true)
      else (d, false)
  end.

(** The [onLogs] callback of the pool utilities' [wait_drop_sub]. *)
Definition on_logs (n : Notification) (d : State) : State * bool :=
  if err n then (d, false)
  else if has_mint_to (logs n) then
    match fetched n with
    | None => (log_error d, false)
    | Some None => (d, false)
    | Some (Some tx) =>
        match meta tx, message tx with
        | Some m, Some keys =>
            match postTokenBalances m, innerInstructions m with
            | Some balances, Some inner_instructions =>
                conclude n keys
                  (for_inner (visit balances) inner_instructions (mint d)) d
            | _, _ => (d, false)
            end
        | _, _ => (d, false)
        end
    end
  else (d, false).

(** The [onLogs] callback of [wait_drop_sub] in [bot.ts]. *)
Definition on_logs_bot (n : Notification) (d : State) : State * bool :=
  if err n then (d, false)
  else if has_mint_to (logs n) then
    match fetched n with
    | None => (log_error d, false)
    | Some None => (d, false)
    | Some (Some tx) =>
        match meta tx, message tx with
        | Some m, Some keys =>
            match innerInstructions m with
            | Some inner_instructions =>
                conclude n keys
                  (for_inner visit_bot inner_instructions (mint d)) d
            | None => (d, false)
            end
        | _, _ => (d, false)
        end
    end
  else (d, false).

(** The detector over a sequence of notifications. *)
Fixpoint observe (cb : Notification -> State -> State * bool)
  (ns : list Notification) (d : State) : State :=
  match ns with
  | [] => d
  | n :: ns' => observe cb ns' (fst (cb n d))
  end.

(** The instructions of a notification's transaction. *)
Definition instructions_of (n : Notification) : list Instruction :=
  match fetched n with
  | Some (Some tx) =>
      match meta tx with
      | Some m =>
          match innerInstructions m with
          | Some inner_instructions => List.concat inner_instructions
          | None => []
          end
      | None => []
      end
  | _ => []
  end.

(** The signer accounts of a notification's transaction. *)
Definition signers_of (n : Notification) : list PublicKey :=
  match fetched n with
  | Some (Some tx) =>
      match message tx with
      | Some keys => map pubkey (filter signer keys)
      | None => []
      end
  | _ => []
  end.

(** An instruction of the metadata program whose payload decodes, with a
    positive number of bytes read, to the target name and ticker. *)
Definition is_match (instruction : Instruction) : bool :=
  (String.eqb (programId_of instruction) metaplexProgramID
   && match instruction with
      | ParsedInstruction _ => false
      | PartiallyDecodedInstruction _ _ data =>
          match decode_metaplex_instr data with
          | Some (m, bytes_read) => (0 <? bytes_read)%Z && matches m
          | None => false
          end
      end)%bool.

(** The transaction of a notification carries a matching instruction. *)
Definition tx_matches (n : Notification) : bool :=
  existsb is_match (instructions_of n).

End Callback.

(** The detector when [wait_drop_sub] has subscribed and no asset is
    resolved yet. *)
Definition subscribed : State := mkState None (Some 0%nat) 0.

(** The value of [mint] a block ends with. *)
Definition mint_of (c : Completion) : option PublicKey :=
  match c with
  | Normal m => m
  | Throw m => m
  end.

(** *** A sample target and two notifications *)

(** A deserializer that knows one payload: the creation of "Foo"/"FOO". *)
Definition sample_decode (data : string) : option (MetaData * Z) :=
  if String.eqb data "create Foo FOO"
  then Some (mkMetaData "Foo" "FOO", 64%Z)
  else None.

Definition sample_new_PublicKey (text : string) : option PublicKey :=
  Some text.

Definition mint_to_logs : option (list string) :=
  Some ["Program log: Instruction: MintTo"].

(** The creation of the target asset "MintM", signed by the payer only. *)
Definition creation_unsigned : Notification :=
  mkNotification false mint_to_logs
    (Some (Some (mkParsedTransaction
       (Some (mkTxMeta
          (Some [mkTokenBalance "MintM"])
          (Some [[PartiallyDecodedInstruction metaplexProgramID
                    ["Metadata"; "MintM"] "create Foo FOO"]])))
       (Some [mkAccountKey "Payer" true; mkAccountKey "MintM" false]))))
    true.

(** A later transaction without any metadata instruction, signed by
    "MintM". *)
Definition unrelated_signed : Notification :=
  mkNotification false mint_to_logs
    (Some (Some (mkParsedTransaction
       (Some (mkTxMeta (Some []) (Some [])))
       (Some [mkAccountKey "MintM" true]))))
    true.

(** *** What the callbacks scan *)

(** An instruction issued by the metadata program. *)
Definition is_metaplex (i : Instruction) : bool :=
  String.eqb (programId_of i) metaplexProgramID.

(** An instruction of the metadata program on which
    [decode_metaplex_instr] throws: a parsed one, which has no [data], or
    one whose payload the deserializer rejects. *)
Definition undecodable (decode : string -> option (MetaData * Z))
  (i : Instruction) : bool :=
  (is_metaplex i
   && match i with
      | ParsedInstruction _ => true
      | PartiallyDecodedInstruction _ _ data =>
          match decode data with
          | None => true
          | Some _ => false
          end
      end)%bool.

(** The parts of a notification that reach the loops of the pool
    utilities' callback; [None] when the callback returns before them. *)
Definition scan_input (n : Notification)
  : option (list TokenBalance * list (list Instruction) * list AccountKey) :=
  if err n then None
  else if has_mint_to (logs n) then
    match fetched n with
    | Some (Some tx) =>
        match meta tx, message tx with
        | Some m, Some keys =>
            match postTokenBalances m, innerInstructions m with
            | Some balances, Some inner_instructions =>
                Some (balances, inner_instructions, keys)
            | _, _ => None
            end
        | _, _ => None
        end
    | _ => None
    end
  else None.

(** The creation of "MintM" in a transaction whose [postTokenBalances]
    is empty. *)
Definition creation_without_balances : Notification :=
  mkNotification false mint_to_logs
    (Some (Some (mkParsedTransaction
       (Some (mkTxMeta
          (Some [])
          (Some [[PartiallyDecodedInstruction metaplexProgramID
                    ["Metadata"; "MintM"] "create Foo FOO"]])))
       (Some [mkAccountKey "Payer" true; mkAccountKey "MintM" true]))))
    true.

(** The creation of "MintM", signed by it, after a metadata instruction
    that the deserializer rejects. *)
Definition creation_after_garbage : Notification :=
  mkNotification false mint_to_logs
    (Some (Some (mkParsedTransaction
       (Some (mkTxMeta
          (Some [mkTokenBalance "MintM"])
          (Some [[PartiallyDecodedInstruction metaplexProgramID [] "junk"];
                 [PartiallyDecodedInstruction metaplexProgramID
                    ["Metadata"; "MintM"] "create Foo FOO"]])))
       (Some [mkAccountKey "Payer" true; mkAccountKey "MintM" true]))))
    true.

(** The creation of "MintM", signed by it, with a token balance that
    names no mint. *)
Definition creation_signed : Notification :=
  mkNotification false mint_to_logs
    (Some (Some (mkParsedTransaction
       (Some (mkTxMeta
          (Some [mkTokenBalance EmptyString])
          (Some [[PartiallyDecodedInstruction "Other" [] "x";
                  PartiallyDecodedInstruction metaplexProgramID
                    ["Metadata"; "MintM"] "create Foo FOO"]])))
       (Some [mkAccountKey "Payer" true; mkAccountKey "MintM" true]))))
    true.

End Detector.

(* ================================================================== *)
(** ** The worker pool ([start_workers]) *)
(* ================================================================== *)

Module Pool.

Local Open Scope Z_scope.

Record BotConfig := mkBotConfig {
  thread_cnt : Z;
  buy_interval : Z;
  spend_limit : Z;
  return_pubkey : string;
  mcap_threshold : Z;
  token_name : string;
  token_ticker : string
}.

(** One key of [common.get_keys()]. *)
Definition Secret := list Z.

(** [common.WorkerConfig]: [secrets[i]] is [undefined] past the end of
    the list. *)
Record WorkerConfig := mkWorkerConfig {
  secret : option Secret;
  id : Z;
  config : BotConfig
}.

(** An entry of [workers]: the thread, by the [workerData] it was
    started with (its promise is left out). *)
Record WorkerPromise := mkWorkerPromise {
  worker : WorkerConfig
}.

Inductive Outcome :=
| ProcessExit (code : Z)
| Started (workers : list WorkerPromise).

(** The [for (let i = 0; i < config.thread_cnt; i++)] loop; [fuel] bounds
    its iterations. *)
Fixpoint spawn_loop (fuel : nat) (i : Z) (config : BotConfig)
  (secrets : list Secret) (workers : list WorkerPromise)
  : list WorkerPromise :=
  match fuel with
  | O => workers
  | S fuel' =>
      if i <? thread_cnt config then
        let data := mkWorkerConfig (nth_error secrets (Z.to_nat i)) (i + 1)
                      config in
        spawn_loop fuel' (i + 1) config secrets
          (workers ++ [mkWorkerPromise data])
      else workers
  end.

(** [start_workers], given the keys read by [common.get_keys()]. *)
Definition start_workers (config : BotConfig) (secrets : list Secret)
  (workers : list WorkerPromise) : Outcome :=
  if Nat.eqb (List.length secrets) 0 then ProcessExit 1
  else Started (spawn_loop (Z.to_nat (thread_cnt config)) 0 config secrets
                  workers).

(** [validate_number(input, min, max)] of the configuration prompt, on
    the number [parseInt] read ([None]: not a number). *)
Definition validate_number (num : option Z) (min max : option Z) : bool :=
  match num with
  | None => false
  | Some n =>
      negb (match min with Some lo => n <=? lo | None => false end
            || match max with Some hi => hi <? n | None => false end)
  end.

(** The workers [start_workers] adds for [n] iterations of its loop. *)
Definition new_worker (config : BotConfig) (secrets : list Secret)
  (k : nat) : WorkerPromise :=
  mkWorkerPromise
    (mkWorkerConfig (nth_error secrets k) (Z.of_nat k + 1) config).

(** *** A sample configuration *)

Definition three_threads : BotConfig :=
  mkBotConfig 3 30 1 "5oZvi4JNC85mJcB93vzotq3UTLR2Emroz87XtAUhP1Ng" 50000
    "Foo" "FOO".

Definition one_key : list Secret := [[1; 2; 3]].

(** *** The promise of a worker and [wait_for_workers] *)

(** The events of a worker thread that [start_workers] listens to. *)
Inductive WorkerEvent :=
| OnMessage (msg : string)
| OnError (err : string)
| OnExit (code : Z).

(** What a promise is rejected with: nothing ([reject()]) or the error
    [[Worker i] Stopped with exit code c]. *)
Inductive Reason :=
| NoReason
| StoppedWithCode (i : Z) (code : Z).

Inductive Promise :=
| Pending
| Fulfilled
| Rejected (reason : Reason).

(** The promise [start_workers] builds in iteration [i], on an event of
    its worker; [resolve] and [reject] do nothing to a settled promise. *)
Definition worker_promise (i : Z) (p : Promise) (ev : WorkerEvent)
  : Promise :=
  match p with
  | Pending =>
      match ev with
      | OnMessage _ => Pending
      | OnError _ => Rejected NoReason
      | OnExit code =>
          if code =? 0 then Fulfilled else Rejected (StoppedWithCode i code)
      end
  | _ => p
  end.

(** The lines the main thread logs. *)
Inductive LogLine :=
| WorkerSaid (msg : string)
| WorkerFailed (i : Z) (err : string)
| AllFinished
| OneFailed (reason : Reason).

(** What the listeners of iteration [i] log on an event, whether the
    promise is settled or not. *)
Definition listener_log (i : Z) (ev : WorkerEvent) : list LogLine :=
  match ev with
  | OnMessage msg => [WorkerSaid msg]
  | OnError err => [WorkerFailed i err]
  | OnExit _ => []
  end.

Definition is_fulfilled (p : Z * Promise) : bool :=
  match snd p with
  | Fulfilled => true
  | _ => false
  end.

Definition is_rejected (p : Z * Promise) : bool :=
  match snd p with
  | Rejected _ => true
  | _ => false
  end.

(** [wait_for_workers] in progress: the promises of the workers, each
    with the index [i] of the iteration that built it, the promise of
    [Promise.all], the log, and whether [wait_for_workers] has called
    [rl.close()]. *)
Record Waiting := mkWaiting {
  promises : list (Z * Promise);
  all : Promise;
  log : list LogLine;
  rl_closed : bool
}.

Fixpoint set_promise (k : nat) (x : Z * Promise) (l : list (Z * Promise))
  : list (Z * Promise) :=
  match l, k with
  | [], _ => []
  | _ :: l', O => x :: l'
  | y :: l', S k' => y :: set_promise k' x l'
  end.

Fixpoint first_rejected (ps : list (Z * Promise)) : option Reason :=
  match ps with
  | [] => None
  | (_, Rejected r) :: _ => Some r
  | _ :: ps' => first_rejected ps'
  end.

(** [wait_for_workers], up to its [await], given the promises
    [workers.map(w => w.promise)]: [Promise.all] is rejected by the first
    promise of the list that is rejected already, fulfilled when all are
    (or there is none), pending otherwise. *)
Definition wait_for_workers (ps : list (Z * Promise)) : Waiting :=
  match first_rejected ps with
  | Some r => mkWaiting ps (Rejected r) [OneFailed r] false
  | None =>
      if forallb is_fulfilled ps
      then mkWaiting ps Fulfilled [AllFinished] true
      else mkWaiting ps Pending [] false
  end.

(** An event of the [k]-th worker: its listeners run and its promise may
    settle; a settlement rejects the pending [Promise.all], or fulfils it
    when it was the last one awaited; [wait_for_workers] then logs, and
    closes the readline on success only. *)
Definition deliver (k : nat) (ev : WorkerEvent) (w : Waiting) : Waiting :=
  match nth_error (promises w) k with
  | None => w
  | Some (i, p) =>
      let p' := worker_promise i p ev in
      let ps := set_promise k (i, p') (promises w) in
      let lg := log w ++ listener_log i ev in
      match all w, p, p' with
      | Pending, Pending, Rejected r =>
          mkWaiting ps (Rejected r) (lg ++ [OneFailed r]) (rl_closed w)
      | Pending, Pending, Fulfilled =>
          if forallb is_fulfilled ps
          then mkWaiting ps Fulfilled (lg ++ [AllFinished]) true
          else mkWaiting ps Pending lg (rl_closed w)
      | a, _, _ => mkWaiting ps a lg (rl_closed w)
      end
  end.

Fixpoint deliver_all (timeline : list (nat * WorkerEvent)) (w : Waiting)
  : Waiting :=
  match timeline with
  | [] => w
  | (k, ev) :: rest => deliver_all rest (deliver k ev w)
  end.

(** An event that rejects a pending promise. *)
Definition failing (ev : WorkerEvent) : bool :=
  match ev with
  | OnMessage _ => false
  | OnError _ => true
  | OnExit code => negb (code =? 0)
  end.

(** The two final lines of [wait_for_workers]. *)
Definition is_verdict (l : LogLine) : bool :=
  match l with
  | AllFinished | OneFailed _ => true
  | _ => false
  end.

Definition verdicts (w : Waiting) : nat :=
  List.length (filter is_verdict (log w)).

(** The indices [i] of the workers, in the order of [promises]. *)
Definition labels (w : Waiting) : list Z := map fst (promises w).

(** What the listeners of the workers log over a timeline. *)
Fixpoint heard (ids : list Z) (timeline : list (nat * WorkerEvent))
  : list LogLine :=
  match timeline with
  | [] => []
  | (k, ev) :: rest =>
      match nth_error ids k with
      | Some i => listener_log i ev
      | None => []
      end ++ heard ids rest
  end.

Definition two_pending : list (Z * Promise) := [(0, Pending); (1, Pending)].

End Pool.

(* ================================================================== *)
(** ** Properties of the worker *)
(* ================================================================== *)

Module WorkerSpec.

Import Worker.
Local Open Scope Q_scope.

(** *** Basic facts *)


Lemma Qltb_lt (x y : Q) : Qltb x y = true <-> x < y.
Proof.
  unfold Qltb. rewrite negb_true_iff. split; intro H.
  - apply Qnot_le_lt. intro Hle. apply Qle_bool_iff in Hle. congruence.
  - destruct (Qle_bool y x) eqn:E; [|reflexivity].
    apply Qle_bool_iff in E. exfalso. apply (Qlt_not_le _ _ H E).
Qed.

Lemma count_app (p : Effect -> bool) (l l' : list Effect) :
  List.length (filter p (l ++ l'))
  = (List.length (filter p l) + List.length (filter p l'))%nat.
Proof. now rewrite filter_app, length_app. Qed.

Lemma guard_dec (cfg : WorkerConfig) (s : State) :
  (Qltb (CURRENT_SPENDINGS s) (spend_limit (inputs cfg) * LAMPORTS_PER_SOL)
   && Qltb MIN_BUY_THRESHOLD (CURRENT_BUY_AMOUNT s))%bool = true
  <-> buy_guard cfg s.
Proof.
  unfold buy_guard. rewrite andb_true_iff, !Qltb_lt. tauto.
Qed.

Ltac proj :=
  cbn [IS_DONE CURRENT_SPENDINGS CURRENT_BUY_AMOUNT IS_SECOND_BUY START_SELL
       CANCEL_SLEEP MINT_METADATA MESSAGE_BUFFER sleeps pc effects] in *.

(** Read the fields of a state through the updates made to it. *)
Ltac setters :=
  cbn [IS_DONE CURRENT_SPENDINGS CURRENT_BUY_AMOUNT IS_SECOND_BUY START_SELL
       CANCEL_SLEEP MINT_METADATA MESSAGE_BUFFER sleeps pc effects
       push emit set_pc set_sleeps set_MESSAGE_BUFFER set_MINT_METADATA
       set_CANCEL_SLEEP set_START_SELL set_IS_SECOND_BUY
       set_CURRENT_BUY_AMOUNT set_CURRENT_SPENDINGS set_IS_DONE] in *.

Ltac count_effects :=
  unfold buys, sells, sell_attempts, sleeps_started, faults, count in *;
  setters;
  repeat rewrite count_app in *;
  cbn [filter List.length is_buy is_sell is_sell_attempt is_set_timeout
       is_fault] in *.

Lemma finish_buys (s : State) : buys (finish s) = buys s.
Proof. unfold finish. count_effects. lia. Qed.

Lemma sell_start_buys (s : State) : buys (sell_start s) = buys s.
Proof.
  unfold sell_start. destruct (MINT_METADATA (push LStartedSelling s)).
  1-3: rewrite finish_buys; count_effects; lia.
  count_effects; lia.
Qed.

Lemma after_loop_buys (s : State) : buys (after_loop s) = buys s.
Proof.
  unfold after_loop. destruct (START_SELL s).
  - apply sell_start_buys.
  - apply finish_buys.
Qed.

Lemma pacing_buys (cfg : WorkerConfig) (z : Q) (s : State) :
  buys (pacing cfg z s) = buys s.
Proof.
  unfold pacing. cbv zeta.
  match goal with |- context [if ?b then _ else _] => destruct b end.
  - rewrite after_loop_buys. count_effects; lia.
  - count_effects; lia.
Qed.


(** Split on the first test the program makes. *)
Ltac split_test :=
  match goal with
  | |- context [match ?x with _ => _ end] => destruct x eqn:?
  end; proj.

(** The same, on the test a hypothesis makes first. *)
Ltac split_hyp H :=
  match type of H with
  | context [match ?x with _ => _ end] => destruct x eqn:?
  end; proj; try discriminate H.



(* ------------------------------------------------------------------ *)
(** *** What a step does to the counters *)
(* ------------------------------------------------------------------ *)

(** The buy size, the alternating flag and the spendings of a state, and
    what the rest of a cycle keeps: those three, a set [IS_DONE], and a
    program point other than [Idle]. *)
Definition counters (s : State) : Q * bool * Q :=
  (CURRENT_BUY_AMOUNT s, IS_SECOND_BUY s, CURRENT_SPENDINGS s).

Definition frame (s s' : State) : Prop :=
  counters s' = counters s
  /\ (IS_DONE s = true -> IS_DONE s' = true)
  /\ pc s' <> Idle
  /\ pc s' <> Crashed.

Lemma frame_trans (s1 s2 s3 : State) :
  counters s2 = counters s1 -> (IS_DONE s1 = true -> IS_DONE s2 = true) ->
  frame s2 s3 -> frame s1 s3.
Proof.
  intros Hc Hd (Hc' & Hd' & Hp & Hx). repeat split; auto. congruence.
Qed.

Ltac frame_now := unfold frame, counters; setters; repeat split; auto; discriminate.

Lemma finish_frame (s : State) : frame s (finish s).
Proof. unfold finish. frame_now. Qed.

Lemma sell_start_frame (s : State) : frame s (sell_start s).
Proof.
  unfold sell_start.
  destruct (MINT_METADATA (push LStartedSelling s)) eqn:E;
    try (eapply frame_trans; [| |apply finish_frame]; reflexivity || (setters; auto)).
  frame_now.
Qed.

Lemma after_loop_frame (s : State) : frame s (after_loop s).
Proof.
  unfold after_loop. destruct (START_SELL s);
    [apply sell_start_frame | apply finish_frame].
Qed.

Lemma pacing_frame (cfg : WorkerConfig) (z : Q) (s : State) :
  frame s (pacing cfg z s).
Proof.
  unfold pacing. cbv zeta.
  match goal with |- context [if ?b then _ else _] => destruct b end.
  - eapply frame_trans; [| |apply after_loop_frame];
      reflexivity || (setters; auto).
  - frame_now.
Qed.

Lemma buy_start_frame (cfg : WorkerConfig) (z : Q) (s : State) :
  frame s (buy_start cfg z s).
Proof. unfold buy_start. frame_now. Qed.

Lemma loop_top_frame (cfg : WorkerConfig) (z : Q) (s : State) :
  frame s (loop_top cfg z s).
Proof.
  unfold loop_top.
  destruct (IS_DONE s); [apply after_loop_frame|].
  destruct (MINT_METADATA s);
    try (eapply frame_trans; [| |apply pacing_frame];
         reflexivity || (setters; auto)).
  destruct (Qle_bool _ _).
  - eapply frame_trans; [| |apply after_loop_frame];
      reflexivity || (setters; auto).
  - destruct (_ && _)%bool; [apply buy_start_frame|].
    eapply frame_trans; [| |apply pacing_frame];
      reflexivity || (setters; auto).
Qed.

Lemma wake_frame (cfg : WorkerConfig) (z : Q) (s : State) :
  frame s (wake cfg z s).
Proof.
  unfold wake. eapply frame_trans; [| |apply loop_top_frame];
    reflexivity || (setters; auto).
Qed.

Lemma cancel_frame (cfg : WorkerConfig) (z : Q) (s : State) :
  pc s <> Idle ->
  counters (call_CANCEL_SLEEP cfg z s) = counters s
  /\ (IS_DONE s = true -> IS_DONE (call_CANCEL_SLEEP cfg z s) = true)
  /\ pc (call_CANCEL_SLEEP cfg z s) <> Idle.
Proof.
  intro Hp. unfold call_CANCEL_SLEEP.
  destruct (CANCEL_SLEEP s);
    [|unfold counters; setters; repeat split; auto; discriminate].
  cbv zeta.
  match goal with |- context [if ?b then _ else _] => destruct b end.
  - match goal with |- context [wake cfg z ?t] =>
      destruct (wake_frame cfg z t) as (Hc & Hd & Hi & _) end.
    repeat split; auto.
  - unfold counters; setters; repeat split; auto.
Qed.

Lemma cancel_done (cfg : WorkerConfig) (z : Q) (s : State) :
  IS_DONE s = true -> IS_DONE (call_CANCEL_SLEEP cfg z s) = true.
Proof.
  intro H. unfold call_CANCEL_SLEEP.
  destruct (CANCEL_SLEEP s); [|exact H].
  cbv zeta.
  match goal with |- context [if ?b then _ else _] => destruct b end.
  - match goal with |- context [wake cfg z ?t] =>
      destruct (wake_frame cfg z t) as (_ & Hd & _) end.
    apply Hd. exact H.
  - exact H.
Qed.

Lemma sell_on_balance_frame (r : TokenAmount + Err) (s : State) :
  frame s (sell_on_balance r s).
Proof.
  unfold sell_on_balance.
  repeat split_test;
    try (eapply frame_trans; [| |apply finish_frame];
         reflexivity || (setters; auto)).
  frame_now.
Qed.

Lemma sell_on_sold_frame (bal : TokenAmount) (r : Signature + Err)
  (s : State) : frame s (sell_on_sold bal r s).
Proof.
  unfold sell_on_sold.
  repeat split_test;
    (eapply frame_trans; [| |apply finish_frame];
     reflexivity || (setters; auto)).
Qed.

Lemma buy_on_bought_frame (cfg : WorkerConfig) (z amt : Q)
  (r : Signature + Err) (s : State) : frame s (buy_on_bought cfg z amt r s).
Proof.
  unfold buy_on_bought. destruct r.
  - frame_now.
  - eapply frame_trans; [| |apply pacing_frame];
      reflexivity || (setters; auto).
Qed.

(** The bookkeeping of a successful buy, on the counters. *)
Lemma buy_bookkeeping_counters (v : Q) (s : State) :
  counters (buy_bookkeeping v s)
  = ((if IS_SECOND_BUY s then CURRENT_BUY_AMOUNT s / 2
      else CURRENT_BUY_AMOUNT s),
     negb (IS_SECOND_BUY s),
     CURRENT_SPENDINGS s + v)
  /\ IS_DONE (buy_bookkeeping v s) = IS_DONE s.
Proof.
  unfold buy_bookkeeping, counters. setters.
  destruct (IS_SECOND_BUY s) eqn:E; setters; rewrite ?E; auto.
Qed.

Lemma buy_on_balance_change_counters (cfg : WorkerConfig) (z amt : Q)
  (sig : Signature) (r : Q + Err) (s : State) :
  counters (buy_on_balance_change cfg z amt sig r s)
  = ((if IS_SECOND_BUY s then CURRENT_BUY_AMOUNT s / 2
      else CURRENT_BUY_AMOUNT s),
     negb (IS_SECOND_BUY s),
     CURRENT_SPENDINGS s + match r with inl v => v | inr _ => amt end)
  /\ (IS_DONE s = true ->
      IS_DONE (buy_on_balance_change cfg z amt sig r s) = true)
  /\ pc (buy_on_balance_change cfg z amt sig r s) <> Idle.
Proof.
  unfold buy_on_balance_change.
  destruct r as [v|e]; cbv zeta beta iota;
  match goal with |- context [pacing cfg z ?t] =>
    destruct (pacing_frame cfg z t) as (Hc & Hd & Hp & _); rewrite Hc
  end;
  match goal with |- context [buy_bookkeeping ?v ?t] =>
    destruct (buy_bookkeeping_counters v t) as (Hb & Hi);
    destruct (MINT_METADATA (buy_bookkeeping v t))
  end;
  (split; [|split; [intro H; apply Hd|exact Hp]]);
  unfold counters in *; setters; congruence.
Qed.

Lemma step_frame (cfg : WorkerConfig) (z : Q) (e : Event) (s s' : State) :
  step cfg z e s = Some s' -> pc s <> Idle ->
  (IS_DONE s = true -> IS_DONE s' = true) /\ pc s' <> Idle /\
  match e with
  | EvBalanceChange r =>
      exists amt sig, pc s = AwaitBalanceChange amt sig /\
      counters s' =
        ((if IS_SECOND_BUY s then CURRENT_BUY_AMOUNT s / 2
          else CURRENT_BUY_AMOUNT s),
         negb (IS_SECOND_BUY s),
         CURRENT_SPENDINGS s + match r with inl v => v | inr _ => amt end)
  | _ => counters s' = counters s
  end.
Proof.
  intros H Hpc. unfold step in H.
  destruct (terminated s); [discriminate|].
  destruct e as [c| |r|r|r|r].
  - unfold on_message in H. destruct c.
    + destruct (pc s); try discriminate. congruence.
    + destruct (START_SELL s); injection H as <-; auto.
    + destruct (IS_DONE s) eqn:Ed; injection H as <-; auto.
      match goal with |- context [call_CANCEL_SLEEP cfg z ?t] =>
        destruct (cancel_frame cfg z t) as (Hc & Hd & Hp) end;
        [setters; auto|].
      repeat split; auto.
    + destruct (IS_DONE s) eqn:Ed; injection H as <-; auto.
      match goal with |- context [call_CANCEL_SLEEP cfg z ?t] =>
        destruct (cancel_frame cfg z t) as (Hc & Hd & Hp) end;
        [setters; auto|].
      repeat split; auto.
    + injection H as <-. unfold counters; setters; auto.
    + injection H as <-. auto.
  - destruct (pc s) eqn:Ep; try discriminate.
    destruct (cell_pending _ _); [|discriminate]. injection H as <-.
    match goal with |- context [wake cfg z ?t] =>
      destruct (wake_frame cfg z t) as (Hc & Hd & Hp & _) end.
    repeat split; auto.
  - destruct (pc s) eqn:Ep; try discriminate. injection H as <-.
    destruct (buy_on_bought_frame cfg z amt r s) as (Hc & Hd & Hp & _).
    repeat split; auto.
  - destruct (pc s) eqn:Ep; try discriminate. injection H as <-.
    destruct (buy_on_balance_change_counters cfg z amt sig r s)
      as (Hc & Hd & Hp).
    repeat split; auto. exists amt, sig. auto.
  - destruct (pc s) eqn:Ep; try discriminate. injection H as <-.
    destruct (sell_on_balance_frame r s) as (Hc & Hd & Hp & _).
    repeat split; auto.
  - destruct (pc s) eqn:Ep; try discriminate. injection H as <-.
    destruct (sell_on_sold_frame bal r s) as (Hc & Hd & Hp & _).
    repeat split; auto.
Qed.

(* ------------------------------------------------------------------ *)
(** *** Buys of a step *)
(* ------------------------------------------------------------------ *)


Lemma loop_top_floor_buys (cfg : WorkerConfig) (z : Q) (s : State) :
  CURRENT_BUY_AMOUNT s <= MIN_BUY_THRESHOLD ->
  buys (loop_top cfg z s) = buys s.
Proof.
  intro H. unfold loop_top.
  destruct (IS_DONE s); [apply after_loop_buys|].
  destruct (MINT_METADATA s);
    try (rewrite pacing_buys; count_effects; lia).
  destruct (Qle_bool _ _).
  - rewrite after_loop_buys; count_effects; lia.
  - destruct (_ && _)%bool eqn:G.
    + apply guard_dec in G. destruct G as [_ G].
      exfalso. apply (Qlt_not_le _ _ G H).
    + rewrite pacing_buys; count_effects; lia.
Qed.








(* ------------------------------------------------------------------ *)
(** *** The invariant of the runs *)
(* ------------------------------------------------------------------ *)



















Lemma exec_reachable (cfg : WorkerConfig) (es : list (Q * Event))
  (s s' : State) :
  reachable cfg s -> exec cfg es s = Some s' -> reachable cfg s'.
Proof.
  revert s. induction es as [|[z e] es IH]; intros s R H; cbn in H.
  - now injection H as <-.
  - destruct (step cfg z e s) as [s1|] eqn:E; [|discriminate].
    apply (IH s1); [eapply reach_step; eauto|exact H].
Qed.

(* ------------------------------------------------------------------ *)
(** *** The buy decision (C4) *)
(* ------------------------------------------------------------------ *)






(* ------------------------------------------------------------------ *)
(** *** The decay of the buy size (C5) *)
(* ------------------------------------------------------------------ *)





(* ------------------------------------------------------------------ *)
(** *** The sell (C6, C7) *)
(* ------------------------------------------------------------------ *)

Lemma finish_pc (s : State) : pc (finish s) = Exited 0.
Proof. reflexivity. Qed.

Lemma finish_counts (s : State) :
  buys (finish s) = buys s /\ sell_attempts (finish s) = sell_attempts s
  /\ sells (finish s) = sells s.
Proof. unfold finish. count_effects. lia. Qed.

(** Once the sell has started, no step buys or starts another sell, and
    [trade.sell_token] is called at most once, from the balance query. *)
Lemma sell_phase_step (cfg : WorkerConfig) (z : Q) (e : Event)
  (s s' : State) :
  sell_phase (pc s) = true -> step cfg z e s = Some s' ->
  sell_phase (pc s') = true /\ buys s' = buys s
  /\ sell_attempts s' = sell_attempts s
  /\ (sells s' + sell_budget (pc s') <= sells s + sell_budget (pc s))%nat.
Proof.
  intros Hs H.
  unfold step, terminated, on_message, call_CANCEL_SLEEP, sell_on_balance,
    sell_on_sold in H.
  destruct (pc s) eqn:Ep; try discriminate; clear Hs;
    destruct e as [[| | | |d|n]| |r|r|r|r]; try discriminate;
    setters; rewrite ?Ep in H; proj;
    repeat (split_hyp H); injection H as <-; setters;
    rewrite ?finish_pc, ?Ep;
    repeat match goal with |- context [finish ?t] =>
      destruct (finish_counts t) as (-> & -> & ->) end;
    cbn [sell_phase sell_budget]; count_effects; repeat split; lia.
Qed.



(** What [sell] does with the holdings it is given: none or zero, it
    reports that there is nothing to sell and ends without a call; some,
    and no pool, it calls [trade.sell_token] with the whole balance. *)
Lemma sell_nothing_to_sell (bal : TokenAmount) (s : State) :
  (uiAmount bal = None \/ exists ui, uiAmount bal = Some ui /\ ui == 0) ->
  sell_on_balance (inl bal) s = finish (push LNoTokens s).
Proof.
  unfold sell_on_balance. intros [->|(ui & -> & H)]; [reflexivity|].
  apply Qeq_bool_iff in H. now rewrite H.
Qed.

Lemma sell_without_pool (bal : TokenAmount) (ui : Q) (s : State)
  (m : TokenMeta) :
  uiAmount bal = Some ui -> ~ ui == 0 -> MINT_METADATA s = Meta m ->
  raydium_pool m = None ->
  sell_on_balance (inl bal) s
  = set_pc (AwaitSellToken bal) (emit (CallSellToken bal SLIPPAGE) s).
Proof.
  unfold sell_on_balance. intros -> H -> ->.
  destruct (Qeq_bool ui 0) eqn:E; [|reflexivity].
  apply Qeq_bool_iff in E. contradiction.
Qed.

Lemma sell_with_pool (bal : TokenAmount) (ui : Q) (s : State)
  (m : TokenMeta) (pool : string) :
  uiAmount bal = Some ui -> ~ ui == 0 -> MINT_METADATA s = Meta m ->
  raydium_pool m = Some pool ->
  sell_on_balance (inl bal) s = finish (push (LSold ui ""%string) s).
Proof.
  unfold sell_on_balance. intros -> H -> ->.
  destruct (Qeq_bool ui 0) eqn:E; [|reflexivity].
  apply Qeq_bool_iff in E. contradiction.
Qed.

(** C7, on an asset that has a pool: the valuation threshold is reached,
    the agent holds 100 tokens, and the sell ends the process without any
    call of the sell capability, after posting that 100 tokens were
    sold. *)
Theorem C7_sell_with_pool_sells_nothing :
  exists s,
    exec sample_cfg pool_sell_run init = Some s
    /\ pc s = Exited 0
    /\ sells s = 0%nat
    /\ In (PostMessage
             [LThresholdReached; LStartedSelling; LSold 100 ""%string])
          (effects s).
Proof.
  eexists. split; [vm_compute; reflexivity|].
  split; [reflexivity|]. split; [reflexivity|].
  cbn. auto 10.
Qed.

(* ------------------------------------------------------------------ *)
(** *** The random amount of a buy (C1) *)
(* ------------------------------------------------------------------ *)

(** The amount of a buy is drawn around the configured [start_buy], with
    a tenth of the current buy size as deviation. *)
Lemma buy_start_draw (cfg : WorkerConfig) (z : Q) (s : State) :
  effects (buy_start cfg z s)
  = effects s
    ++ [CallNormalRandom (start_buy (inputs cfg))
          (CURRENT_BUY_AMOUNT s * (1 # 10))]
    ++ [CallBuyToken
          (normal_random (start_buy (inputs cfg))
             (CURRENT_BUY_AMOUNT s * (1 # 10)) z) SLIPPAGE].
Proof. unfold buy_start. setters. now rewrite <- app_assoc. Qed.

(** C1, on the third buy of an agent configured with a start buy of 1:
    two buys have succeeded, the current buy size is 1/2, and the amount
    is drawn with mean 1, the configured start buy, and deviation 1/20, a
    tenth of the current buy size. *)
Theorem C1_third_buy_drawn_around_start_buy :
  exists s mean std,
    exec sample_cfg two_buys_run init = Some s
    /\ last_draw (effects s) = Some (mean, std)
    /\ CURRENT_BUY_AMOUNT s == 1 # 2
    /\ mean == start_buy (inputs sample_cfg)
    /\ std == CURRENT_BUY_AMOUNT s * (1 # 10)
    /\ ~ mean == CURRENT_BUY_AMOUNT s.
Proof.
  eexists. eexists. eexists.
  split; [vm_compute; reflexivity|].
  split; [vm_compute; reflexivity|].
  split; [reflexivity|]. split; [reflexivity|]. split; [reflexivity|].
  intro H. discriminate H.
Qed.

(* ------------------------------------------------------------------ *)
(** *** The commands (C8, C9, C10) *)
(* ------------------------------------------------------------------ *)

Lemma stop_sets_done (cfg : WorkerConfig) (z : Q) (s s' : State) :
  on_message cfg z CmdStop s = Some s' -> IS_DONE s' = true.
Proof.
  unfold on_message. destruct (IS_DONE s) eqn:E; intros [= <-]; [exact E|].
  apply cancel_done. reflexivity.
Qed.

(** C8, as stated, fails for [sell]: a [stop] that arrives while a buy is
    awaited sets [IS_DONE] and leaves [START_SELL] unset; a [sell] that
    follows posts its status line and sets [START_SELL], and the loop,
    which would have ended without selling, then starts the sell. *)
Lemma C8_sell_after_stop_takes_effect :
  IS_DONE (state_after sample_cfg stop_during_buy_run) = true
  /\ exec sample_cfg stop_during_buy_run init
     = Some (state_after sample_cfg stop_during_buy_run)
  /\ on_message sample_cfg 0 CmdSell
       (state_after sample_cfg stop_during_buy_run)
     <> Some (state_after sample_cfg stop_during_buy_run)
  /\ pc (state_after sample_cfg
           (stop_during_buy_run
            ++ [(0, EvBuyToken (inr "failed"%string))]))
     = Exited 0
  /\ pc (state_after sample_cfg
           (stop_during_buy_run
            ++ [(0, EvMessage CmdSell);
                (0, EvBuyToken (inr "failed"%string))]))
     = AwaitTokenBalance.
Proof.
  split; [reflexivity|]. split; [vm_compute; reflexivity|].
  split; [vm_compute; discriminate|]. split; reflexivity.
Qed.

(** C8, amended: in a worker that has not ended, [collect] and [stop]
    do nothing once [IS_DONE] is set, whatever [START_SELL]; [sell] does
    nothing once [START_SELL] is set, whatever [IS_DONE], and takes effect
    as long as [START_SELL] is unset, [IS_DONE] set or not; a [stop] leaves
    [IS_DONE] set, so that a second [stop] changes nothing; and once the
    process has ended, however it ended, no command is handled at all.
    The same holds of the worker with several loops. *)
Theorem C8_commands_after_done (cfg : WorkerConfig) (z : Q) (s : State) :
  terminated s = false ->
  (IS_DONE s = true ->
   step cfg z (EvMessage CmdCollect) s = Some s
   /\ step cfg z (EvMessage CmdStop) s = Some s)
  /\ (START_SELL s = true -> step cfg z (EvMessage CmdSell) s = Some s)
  /\ (START_SELL s = false ->
      exists s1,
        step cfg z (EvMessage CmdSell) s = Some s1
        /\ START_SELL s1 = true /\ IS_DONE s1 = true
        /\ effects s1 = effects s ++ [PostMessage [LReceivedSell]])
  /\ (forall s1,
        step cfg z (EvMessage CmdStop) s = Some s1 ->
        IS_DONE s1 = true
        /\ (terminated s1 = false ->
            forall z', step cfg z' (EvMessage CmdStop) s1 = Some s1))
  /\ (forall s0 z0 c,
        terminated s0 = true -> step cfg z0 (EvMessage c) s0 = None)
  /\ (forall l,
        (IS_DONE s = true ->
         turn cfg z (Message CmdCollect) (mkProcess s l)
         = Some (mkProcess s l)
         /\ turn cfg z (Message CmdStop) (mkProcess s l)
            = Some (mkProcess s l))
        /\ (START_SELL s = true ->
            turn cfg z (Message CmdSell) (mkProcess s l)
            = Some (mkProcess s l)))
  /\ (forall t0 z0 a, terminated (vars t0) = true -> turn cfg z0 a t0 = None).
Proof.
  intro Ht. unfold step. rewrite Ht.
  split; [intro Hd; unfold on_message; rewrite Hd; auto|].
  split; [intro Hs; unfold on_message; now rewrite Hs|].
  split.
  { intro Hs. unfold on_message. rewrite Hs.
    eexists. split; [reflexivity|]. split; [reflexivity|].
    split; reflexivity. }
  split.
  { intros s1 H. pose proof (stop_sets_done cfg z s s1 H) as Hd.
    split; [exact Hd|]. intros Ht1 z'. rewrite Ht1.
    unfold on_message. now rewrite Hd. }
  split; [intros s0 z0 c H0; now rewrite H0|].
  split.
  { intro l. unfold turn. cbn [vars]. rewrite Ht. cbn [handle vars].
    split; [intro Hd; rewrite Hd; auto|intro Hs; now rewrite Hs]. }
  intros t0 z0 a H0. unfold turn. now rewrite H0.
Qed.

Lemma C8_commands_after_done_witness :
  step sample_cfg 0 (EvMessage CmdCollect)
    (state_after sample_cfg stop_during_buy_run)
  = Some (state_after sample_cfg stop_during_buy_run)
  /\ step sample_cfg 0 (EvMessage CmdStop)
       (state_after sample_cfg stop_during_buy_run)
     = Some (state_after sample_cfg stop_during_buy_run).
Proof.
  refine (proj1 (C8_commands_after_done sample_cfg 0
                   (state_after sample_cfg stop_during_buy_run) _) _).
  - vm_compute. reflexivity.
  - vm_compute. reflexivity.
Defined.






End WorkerSpec.

(* ================================================================== *)
(** ** Properties of the detector *)
(* ================================================================== *)

Module DetectorSpec.

Import Detector.

Section Callback.

Variable decode_metaplex_instr : string -> option (MetaData * Z).
Variable new_PublicKey : string -> option PublicKey.
Variables token_name token_ticker : string.

Abbreviation is_match' := (is_match decode_metaplex_instr token_name token_ticker).
Abbreviation tx_matches' :=
  (tx_matches decode_metaplex_instr token_name token_ticker).
Abbreviation on_logs' :=
  (on_logs decode_metaplex_instr new_PublicKey token_name token_ticker).
Abbreviation on_logs_bot' :=
  (on_logs_bot decode_metaplex_instr token_name token_ticker).

Lemma signed_by_spec (keys : list AccountKey) (mint : option PublicKey) :
  signed_by keys mint = true ->
  exists m, mint = Some m /\ In m (map pubkey (filter signer keys)).
Proof.
  unfold signed_by. intro H. apply existsb_exists in H.
  destruct H as (key & Hin & Hk). destruct mint as [m|]; [|discriminate].
  exists m. split; [reflexivity|].
  apply String.eqb_eq in Hk. subst m. now apply in_map.
Qed.

Lemma visit_cases (balances : list TokenBalance) (i : Instruction)
  (mint : option PublicKey) :
  mint_of (visit decode_metaplex_instr new_PublicKey token_name token_ticker
             balances i mint) = mint
  \/ is_match' i = true.
Proof.
  unfold visit, is_match.
  destruct (String.eqb (programId_of i) metaplexProgramID); cbn [negb];
    [|left; reflexivity].
  destruct i as [p|p accounts data]; [left; reflexivity|].
  destruct (decode_metaplex_instr data) as [[m bytes_read]|];
    [|left; reflexivity].
  destruct (Z.leb_spec bytes_read 0) as [Hb|Hb]; [left; reflexivity|].
  destruct (matches token_name token_ticker m); [|left; reflexivity].
  right. cbn. apply Z.ltb_lt in Hb. now rewrite Hb.
Qed.

Lemma visit_bot_cases (i : Instruction) (mint : option PublicKey) :
  mint_of (visit_bot decode_metaplex_instr token_name token_ticker i mint)
  = mint
  \/ is_match' i = true.
Proof.
  unfold visit_bot, is_match.
  destruct (String.eqb (programId_of i) metaplexProgramID); cbn [negb];
    [|left; reflexivity].
  destruct i as [p|p accounts data]; [left; reflexivity|].
  destruct (decode_metaplex_instr data) as [[m bytes_read]|];
    [|left; reflexivity].
  destruct (Z.leb_spec bytes_read 0) as [Hb|Hb]; [left; reflexivity|].
  destruct (matches token_name token_ticker m); [|left; reflexivity].
  right. cbn. apply Z.ltb_lt in Hb. now rewrite Hb.
Qed.

Section Loops.

Variable body : Instruction -> option PublicKey -> Completion.
Hypothesis body_cases :
  forall i mint, mint_of (body i mint) = mint \/ is_match' i = true.

Lemma for_instructions_cases (l : list Instruction)
  (mint : option PublicKey) :
  mint_of (for_instructions body l mint) = mint
  \/ existsb is_match' l = true.
Proof.
  revert mint. induction l as [|i l IH]; intro mint; [left; reflexivity|].
  cbn [for_instructions existsb].
  destruct (body_cases i mint) as [E|E]; [|right; now rewrite E].
  destruct (body i mint) as [m|m] eqn:B; cbn [mint_of] in E; subst m.
  - destruct (IH mint) as [E'|E']; [left; exact E'|].
    right. rewrite E'. apply orb_true_r.
  - left. reflexivity.
Qed.

Lemma for_inner_cases (ll : list (list Instruction))
  (mint : option PublicKey) :
  mint_of (for_inner body ll mint) = mint
  \/ existsb is_match' (List.concat ll) = true.
Proof.
  revert mint. induction ll as [|l ll IH]; intro mint; [left; reflexivity|].
  cbn [for_inner List.concat]. rewrite existsb_app.
  destruct (for_instructions_cases l mint) as [E|E];
    [|right; now rewrite E].
  destruct (for_instructions body l mint) as [m|m] eqn:B;
    cbn [mint_of] in E; subst m.
  - destruct (IH mint) as [E'|E']; [left; exact E'|].
    right. rewrite E'. apply orb_true_r.
  - left. reflexivity.
Qed.

End Loops.

Lemma wait_drop_unsub_mint (b : bool) (d : State) :
  mint (wait_drop_unsub b d) = mint d.
Proof.
  unfold wait_drop_unsub. destruct (subscriptionID d); [|reflexivity].
  destruct b; reflexivity.
Qed.

Lemma conclude_spec (n : Notification) (keys : list AccountKey)
  (c : Completion) (d : State) :
  mint (fst (conclude n keys c d)) = mint_of c
  /\ (snd (conclude n keys c d) = true ->
      exists m, mint_of c = Some m
                /\ In m (map pubkey (filter signer keys))).
Proof.
  unfold conclude. destruct c as [m|m]; cbn [mint_of].
  - destruct (signed_by keys m) eqn:S; cbn [fst snd].
    + rewrite wait_drop_unsub_mint. split; [reflexivity|].
      intros _. now apply signed_by_spec.
    + split; [reflexivity|discriminate].
  - cbn. split; [reflexivity|discriminate].
Qed.

(** Each callback keeps the candidate, or its transaction carries a
    matching instruction; and it unsubscribes only with a candidate that
    signs the transaction. *)
Lemma on_logs_spec (n : Notification) (d : State) :
  (mint (fst (on_logs' n d)) = mint d \/ tx_matches' n = true)
  /\ (snd (on_logs' n d) = true ->
      exists m, mint (fst (on_logs' n d)) = Some m /\ In m (signers_of n)).
Proof.
  unfold on_logs, tx_matches, instructions_of, signers_of.
  destruct (err n); [split; [left; reflexivity|discriminate]|].
  destruct (has_mint_to (logs n)); [|split; [left; reflexivity|discriminate]].
  destruct (fetched n) as [[tx|]|];
    try (split; [left; reflexivity|discriminate]).
  destruct (meta tx) as [m|]; [|split; [left; reflexivity|discriminate]].
  destruct (message tx) as [keys|];
    [|split; [left; reflexivity|discriminate]].
  destruct (postTokenBalances m) as [balances|];
    [|split; [left; reflexivity|discriminate]].
  destruct (innerInstructions m) as [inner|];
    [|split; [left; reflexivity|discriminate]].
  match goal with |- context [conclude n keys ?c d] =>
    destruct (conclude_spec n keys c d) as [E F]; rewrite E end.
  split.
  - apply for_inner_cases. apply visit_cases.
  - exact F.
Qed.

Lemma on_logs_bot_spec (n : Notification) (d : State) :
  (mint (fst (on_logs_bot' n d)) = mint d \/ tx_matches' n = true)
  /\ (snd (on_logs_bot' n d) = true ->
      exists m,
        mint (fst (on_logs_bot' n d)) = Some m /\ In m (signers_of n)).
Proof.
  unfold on_logs_bot, tx_matches, instructions_of, signers_of.
  destruct (err n); [split; [left; reflexivity|discriminate]|].
  destruct (has_mint_to (logs n)); [|split; [left; reflexivity|discriminate]].
  destruct (fetched n) as [[tx|]|];
    try (split; [left; reflexivity|discriminate]).
  destruct (meta tx) as [m|]; [|split; [left; reflexivity|discriminate]].
  destruct (message tx) as [keys|];
    [|split; [left; reflexivity|discriminate]].
  destruct (innerInstructions m) as [inner|];
    [|split; [left; reflexivity|discriminate]].
  match goal with |- context [conclude n keys ?c d] =>
    destruct (conclude_spec n keys c d) as [E F]; rewrite E end.
  split.
  - apply for_inner_cases. apply visit_bot_cases.
  - exact F.
Qed.

(** Over a sequence of notifications, the candidate changes only when
    one of their transactions carries a matching instruction. *)
Lemma observe_cases (cb : Notification -> State -> State * bool)
  (ns : list Notification) (d : State) :
  (forall n d0, mint (fst (cb n d0)) = mint d0 \/ tx_matches' n = true) ->
  mint (observe cb ns d) = mint d
  \/ exists n, In n ns /\ tx_matches' n = true.
Proof.
  intro Hcb. revert d. induction ns as [|n ns IH]; intro d;
    [left; reflexivity|].
  cbn [observe].
  destruct (IH (fst (cb n d))) as [E|(n' & Hin & Hm)].
  - destruct (Hcb n d) as [E'|E'].
    + left. congruence.
    + right. exists n. split; [left; reflexivity|exact E'].
  - right. exists n'. split; [right; exact Hin|exact Hm].
Qed.

(** C2, amended: either version of the callback unsubscribes on a
    transaction only if the candidate identifier it then holds appears
    among the signers of that transaction; and, the detector having
    started without a candidate, that candidate was set by a metadata
    instruction whose decoded name equals the target name and whose
    decoded symbol contains the target ticker, in this transaction or in
    one observed before.  So a transaction that matches the name and the
    symbol and whose signers do not include the candidate does not
    unsubscribe. *)
Theorem C2_unsubscribes_only_on_signed_candidate
  (cb : Notification -> State -> State * bool)
  (ns : list Notification) (n : Notification) :
  cb = on_logs' \/ cb = on_logs_bot' ->
  snd (cb n (observe cb ns subscribed)) = true ->
  exists m,
    mint (fst (cb n (observe cb ns subscribed))) = Some m
    /\ In m (signers_of n)
    /\ exists n', In n' (ns ++ [n]) /\ tx_matches' n' = true.
Proof.
  intros Hcb Hfin.
  assert (Hspec : forall n0 d0,
    (mint (fst (cb n0 d0)) = mint d0 \/ tx_matches' n0 = true)
    /\ (snd (cb n0 d0) = true ->
        exists m, mint (fst (cb n0 d0)) = Some m /\ In m (signers_of n0))).
  { destruct Hcb as [-> | ->];
      [apply on_logs_spec | apply on_logs_bot_spec]. }
  destruct (Hspec n (observe cb ns subscribed)) as [Hkeep Hsig].
  destruct (Hsig Hfin) as (m & Hm & Hin).
  exists m. split; [exact Hm|]. split; [exact Hin|].
  destruct Hkeep as [Hkeep|Hmatch].
  - destruct (observe_cases cb ns subscribed (fun n0 d0 => proj1 (Hspec n0 d0)))
      as [E|(n' & Hn' & Hm')].
    + rewrite Hkeep, E in Hm. discriminate Hm.
    + exists n'. split; [apply in_or_app; left; exact Hn'|exact Hm'].
  - exists n. split; [apply in_or_app; right; left; reflexivity|exact Hmatch].
Qed.

End Callback.

(** C2, as stated, fails on two notifications: the first transaction
    creates the target asset and matches the name and the symbol, but the
    asset is not among its signers: the callback does not unsubscribe and
    keeps the asset as its candidate; the second transaction carries no
    metadata instruction at all and is signed by the candidate: the
    callback unsubscribes. *)
Lemma C2_unsubscribes_on_unrelated_transaction :
  tx_matches sample_decode "Foo" "FOO" creation_unsigned = true
  /\ on_logs sample_decode sample_new_PublicKey "Foo" "FOO"
       creation_unsigned subscribed
     = (mkState (Some "MintM"%string) (Some 0%nat) 0, false)
  /\ tx_matches sample_decode "Foo" "FOO" unrelated_signed = false
  /\ on_logs sample_decode sample_new_PublicKey "Foo" "FOO"
       unrelated_signed
       (mkState (Some "MintM"%string) (Some 0%nat) 0)
     = (mkState (Some "MintM"%string) None 0, true)
  /\ on_logs_bot sample_decode "Foo" "FOO" unrelated_signed
       (fst (on_logs_bot sample_decode "Foo" "FOO" creation_unsigned
               subscribed))
     = (mkState (Some "MintM"%string) None 0, true).
Proof.
  split; [vm_compute; reflexivity|]. split; [vm_compute; reflexivity|].
  split; [vm_compute; reflexivity|]. split; vm_compute; reflexivity.
Qed.

Lemma C2_unsubscribes_only_on_signed_candidate_witness :
  exists m,
    mint (fst (on_logs sample_decode sample_new_PublicKey "Foo" "FOO"
                 unrelated_signed
                 (observe
                    (on_logs sample_decode sample_new_PublicKey "Foo" "FOO")
                    [creation_unsigned] subscribed))) = Some m
    /\ In m (signers_of unrelated_signed)
    /\ exists n',
         In n' ([creation_unsigned] ++ [unrelated_signed])
         /\ tx_matches sample_decode "Foo" "FOO" n' = true.
Proof.
  apply (C2_unsubscribes_only_on_signed_candidate sample_decode
           sample_new_PublicKey "Foo" "FOO"
           (on_logs sample_decode sample_new_PublicKey "Foo" "FOO")
           [creation_unsigned] unrelated_signed).
  - left. reflexivity.
  - vm_compute. reflexivity.
Defined.

End DetectorSpec.

(* ================================================================== *)
(** ** Properties of the worker pool *)
(* ================================================================== *)

Module PoolSpec.

Import Pool.
Local Open Scope Z_scope.

(** The loop, from its [i]-th iteration on, adds one worker for every
    index from [i] to [thread_cnt - 1]. *)
Lemma spawn_loop_spec (config : BotConfig) (secrets : list Secret)
  (fuel : nat) :
  forall (i : Z) (workers : list WorkerPromise),
    0 <= i -> fuel = Z.to_nat (thread_cnt config - i) ->
    spawn_loop fuel i config secrets workers
    = workers ++ map (new_worker config secrets) (seq (Z.to_nat i) fuel).
Proof.
  induction fuel as [|fuel IH]; intros i workers Hi Hf; cbn [spawn_loop].
  - cbn. now rewrite app_nil_r.
  - destruct (Z.ltb_spec i (thread_cnt config)) as [Hlt|Hge]; [|lia].
    rewrite IH by lia. rewrite <- app_assoc. f_equal.
    cbn [seq map app]. rewrite Z2Nat.inj_add by lia.
    replace (Z.to_nat i + Z.to_nat 1)%nat with (S (Z.to_nat i)) by lia.
    f_equal. unfold new_worker. rewrite Z2Nat.id by lia. reflexivity.
Qed.

Lemma start_workers_spec (config : BotConfig) (secrets : list Secret)
  (workers : list WorkerPromise) :
  secrets <> [] ->
  start_workers config secrets workers
  = Started (workers
             ++ map (new_worker config secrets)
                  (seq 0 (Z.to_nat (thread_cnt config)))).
Proof.
  intro H. unfold start_workers.
  destruct secrets as [|k secrets]; [contradiction|]. cbn [List.length Nat.eqb].
  rewrite spawn_loop_spec by (try lia; f_equal; lia). reflexivity.
Qed.

(** C3, as stated, fails when the configuration asks for more workers
    than there are keys: with one key and [thread_cnt] 3, three workers
    are started, the second and the third without a key. *)
Lemma C3_more_workers_than_keys :
  exists ws,
    start_workers three_threads one_key [] = Started ws
    /\ List.length ws = 3%nat
    /\ List.length ws
       <> Nat.min (Z.to_nat (thread_cnt three_threads)) (List.length one_key)
    /\ map (fun w => secret (worker w)) ws = [Some [1; 2; 3]; None; None].
Proof.
  eexists. split; [vm_compute; reflexivity|].
  split; [reflexivity|]. split; [vm_compute; discriminate|reflexivity].
Qed.

(** C3, amended: [start_workers] ends the process with code 1 when there
    is no key; otherwise it adds exactly [thread_cnt] workers (none when
    [thread_cnt] is not positive), the [k]-th with the identifier [k + 1]
    and the [k]-th key; when [thread_cnt] is at most the number of keys,
    as the configuration prompt requires, that is the minimum of the two
    and every worker has the key of its own position. *)
Theorem C3_start_workers_count (config : BotConfig) (secrets : list Secret)
  (workers : list WorkerPromise) :
  (secrets = [] -> start_workers config secrets workers = ProcessExit 1)
  /\ (secrets <> [] ->
      exists ws,
        start_workers config secrets workers = Started (workers ++ ws)
        /\ List.length ws = Z.to_nat (thread_cnt config)
        /\ (forall k,
              (k < List.length ws)%nat ->
              nth_error ws k
              = Some (mkWorkerPromise
                        (mkWorkerConfig (nth_error secrets k)
                           (Z.of_nat k + 1) config)))
        /\ (thread_cnt config <= Z.of_nat (List.length secrets) ->
            List.length ws
            = Nat.min (Z.to_nat (thread_cnt config)) (List.length secrets)
            /\ forall k,
                 (k < List.length ws)%nat ->
                 exists key,
                   nth_error secrets k = Some key
                   /\ nth_error ws k
                      = Some (mkWorkerPromise
                                (mkWorkerConfig (Some key) (Z.of_nat k + 1)
                                   config)))).
Proof.
  split; [intros ->; reflexivity|].
  intro H. rewrite (start_workers_spec config secrets workers H).
  set (n := Z.to_nat (thread_cnt config)).
  exists (map (new_worker config secrets) (seq 0 n)).
  assert (L : List.length (map (new_worker config secrets) (seq 0 n)) = n)
    by now rewrite length_map, length_seq.
  assert (N : forall k, (k < n)%nat ->
            nth_error (map (new_worker config secrets) (seq 0 n)) k
            = Some (new_worker config secrets k)).
  { intros k Hk. rewrite nth_error_map.
    rewrite nth_error_seq. destruct (Nat.ltb_spec k n); [reflexivity|lia]. }
  split; [reflexivity|]. split; [exact L|]. split.
  - intros k Hk. rewrite L in Hk. apply N. exact Hk.
  - intro Hle. rewrite L. split; [subst n; lia|].
    intros k Hk.
    assert (Hs : (k < List.length secrets)%nat) by (subst n; lia).
    destruct (nth_error secrets k) as [key|] eqn:E.
    + exists key. split; [reflexivity|]. rewrite (N k Hk).
      unfold new_worker. now rewrite E.
    + apply nth_error_None in E. lia.
Qed.

Lemma C3_start_workers_count_witness :
  exists ws,
    start_workers three_threads (one_key ++ one_key ++ one_key) []
    = Started ([] ++ ws)
    /\ List.length ws = 3%nat.
Proof.
  destruct (proj2 (C3_start_workers_count three_threads
                     (one_key ++ one_key ++ one_key) []))
    as (ws & A & B & _).
  - discriminate.
  - exists ws. split; [exact A|exact B].
Defined.

(** The prompt accepts a number of bots only between 1 and the number of
    keys. *)
Lemma validate_thread_cnt (n keys_cnt : Z) :
  validate_number (Some n) (Some 0) (Some keys_cnt) = true
  <-> 0 < n <= keys_cnt.
Proof.
  unfold validate_number. rewrite negb_true_iff, orb_false_iff.
  rewrite Z.leb_gt, Z.ltb_ge. lia.
Qed.

End PoolSpec.

(* ================================================================== *)
(** ** More properties of the worker *)
(* ================================================================== *)

Module WorkerExtra.

Import Worker WorkerSpec.
Local Open Scope Q_scope.

(* ------------------------------------------------------------------ *)
(** *** The shape of the steps *)
(* ------------------------------------------------------------------ *)

Lemma extends_refl (s r : State) (tail : list Effect) :
  effects r = effects s ++ tail -> extends s r tail.
Proof. intro H. exists []. split; [reflexivity|exact H]. Qed.

Lemma extends_quiet (s r : State) (d : list Effect) :
  forallb is_quiet d = true -> effects r = effects s ++ d -> extends s r [].
Proof. intros Q H. exists d. split; [exact Q|]. now rewrite app_nil_r. Qed.

Lemma extends_pre (s t r : State) (tail : list Effect) :
  extends s t [] -> extends t r tail -> extends s r tail.
Proof.
  intros (d1 & Q1 & E1) (d2 & Q2 & E2). exists (d1 ++ d2). split.
  - rewrite forallb_app, Q1, Q2. reflexivity.
  - rewrite E2, E1, app_nil_r, <- !app_assoc. reflexivity.
Qed.

Lemma Rest_pre (s t r : State) : extends s t [] -> Rest t r -> Rest s r.
Proof.
  intros Hst [Hp He Hl|m Hp Hm He|i secs Hp He].
  - apply RestExit; [exact Hp|eapply extends_pre; eauto|exact Hl].
  - apply (RestSell s r m); [exact Hp|exact Hm|eapply extends_pre; eauto].
  - apply (RestSleep s r i secs); [exact Hp|eapply extends_pre; eauto].
Qed.

(** Counting through an extension. *)
Lemma extends_count (p : Effect -> bool) (s r : State) (tail : list Effect) :
  (forall e, is_quiet e = true -> p e = false) ->
  extends s r tail ->
  count p r = (count p s + List.length (filter p tail))%nat.
Proof.
  intros Hp (d & Q & E). unfold count. rewrite E, !count_app.
  assert (Z : List.length (filter p d) = 0%nat).
  { clear E. induction d as [|e d IH]; [reflexivity|].
    cbn [forallb] in Q. apply andb_true_iff in Q. destruct Q as [Qe Qd].
    cbn [filter]. rewrite (Hp e Qe). now apply IH. }
  lia.
Qed.

Ltac same_effects := apply extends_refl; setters; now rewrite ?app_nil_r.

Lemma finish_rest (s : State) : Rest s (finish s).
Proof.
  apply RestExit; [reflexivity| |].
  - apply (extends_quiet s (finish s)
             [PostMessage (MESSAGE_BUFFER s); PostMessage [LFinished];
              ProcessExit 0]); [reflexivity|].
    unfold finish. setters. now rewrite <- !app_assoc.
  - exists (effects s), (MESSAGE_BUFFER s).
    unfold finish. setters. now rewrite <- !app_assoc.
Qed.

Lemma sell_start_rest (s : State) : Rest s (sell_start s).
Proof.
  unfold sell_start. cbv zeta.
  destruct (MINT_METADATA (push LStartedSelling s)) as [| | |m] eqn:E;
    try (eapply Rest_pre; [|apply finish_rest]; same_effects).
  apply (RestSell _ _ m); [reflexivity|exact E|].
  apply extends_refl. reflexivity.
Qed.

Lemma after_loop_rest (s : State) : Rest s (after_loop s).
Proof.
  unfold after_loop. destruct (START_SELL s);
    [apply sell_start_rest|apply finish_rest].
Qed.

Lemma pacing_rest (cfg : WorkerConfig) (z : Q) (s : State) :
  Rest s (pacing cfg z s).
Proof.
  unfold pacing. cbv zeta.
  match goal with |- context [if ?b then _ else _] => destruct b end.
  - eapply Rest_pre; [|apply after_loop_rest].
    eapply extends_quiet; [|setters; rewrite <- app_assoc; reflexivity].
    reflexivity.
  - eapply RestSleep; [reflexivity|].
    match goal with |- extends _ _ [SetTimeout ?i ?t] =>
      exists [CallNormalRandom (buy_interval (inputs cfg)) 5;
              PostMessage (MESSAGE_BUFFER s ++ [LSleeping t])] end.
    split; [reflexivity|]. setters. now rewrite <- !app_assoc.
Qed.

Lemma buy_start_buy (cfg : WorkerConfig) (z : Q) (s : State) (m : TokenMeta) :
  IS_DONE s = false -> MINT_METADATA s = Meta m -> buy_guard cfg s ->
  Buy cfg s (buy_start cfg z s).
Proof.
  intros Hd Hm Hg. unfold buy_start. cbv zeta.
  eexists. exists m. split; [reflexivity|]. split; [exact Hm|].
  split; [exact Hg|]. split; [exact Hd|].
  eexists [CallNormalRandom _ _]. split; [reflexivity|].
  setters. now rewrite <- !app_assoc.
Qed.

Lemma loop_top_shape (cfg : WorkerConfig) (z : Q) (s : State) :
  Rest s (loop_top cfg z s) \/ Buy cfg s (loop_top cfg z s).
Proof.
  unfold loop_top.
  destruct (IS_DONE s) eqn:Hd; [left; apply after_loop_rest|].
  destruct (MINT_METADATA s) as [| | |m] eqn:Hm;
    try (left; eapply Rest_pre; [|apply pacing_rest]; same_effects).
  destruct (Qle_bool _ _).
  - left. eapply Rest_pre; [|apply after_loop_rest]. same_effects.
  - destruct (_ && _)%bool eqn:G.
    + right. apply guard_dec in G. now apply (buy_start_buy cfg z s m).
    + left. eapply Rest_pre; [|apply pacing_rest]. same_effects.
Qed.

Lemma loop_top_done_rest (cfg : WorkerConfig) (z : Q) (s : State) :
  IS_DONE s = true -> Rest s (loop_top cfg z s).
Proof.
  intro Hd. unfold loop_top. rewrite Hd. apply after_loop_rest.
Qed.

(** Only the sell goes on from the sell, and it only ends. *)
Lemma sell_on_balance_shape (cfg : WorkerConfig) (r : TokenAmount + Err)
  (s : State) :
  pc s = AwaitTokenBalance -> step_shape cfg s (sell_on_balance r s).
Proof.
  intro Ep. unfold sell_on_balance.
  repeat split_test;
    try (left; eapply Rest_pre; [|apply finish_rest]; same_effects).
  right. right. right. right. right. eexists.
  split; [exact Ep|]. split; [reflexivity|]. apply extends_refl. reflexivity.
Qed.

Lemma sell_on_sold_rest (bal : TokenAmount) (r : Signature + Err)
  (s : State) : Rest s (sell_on_sold bal r s).
Proof.
  unfold sell_on_sold.
  repeat split_test; (eapply Rest_pre; [|apply finish_rest]; same_effects).
Qed.

Lemma cancel_shape (cfg : WorkerConfig) (z : Q) (s0 s : State) :
  IS_DONE s = true -> pc s = pc s0 -> extends s0 s [] ->
  step_shape cfg s0 (call_CANCEL_SLEEP cfg z s).
Proof.
  intros Hd Hp He. unfold call_CANCEL_SLEEP.
  destruct (CANCEL_SLEEP s) as [i|].
  - cbv zeta.
    match goal with |- context [if ?b then _ else _] => destruct b end.
    + left. eapply Rest_pre; [|apply loop_top_done_rest; exact Hd].
      eapply extends_pre; [exact He|].
      apply (extends_quiet _ _ [ClearTimeout i]); reflexivity.
    + right. right. left. split; [exact Hp|].
      eapply extends_pre; [exact He|].
      apply (extends_quiet _ _ [ClearTimeout i]); reflexivity.
  - right. right. right. left. split; [reflexivity|].
    eapply extends_pre; [exact He|].
    eapply extends_quiet; cycle 1; [reflexivity|reflexivity].
Qed.

Lemma step_has_shape (cfg : WorkerConfig) (z : Q) (e : Event) (s s' : State) :
  step cfg z e s = Some s' -> step_shape cfg s s'.
Proof.
  intro H. unfold step in H.
  destruct (terminated s); [discriminate|].
  destruct e as [c| |r|r|r|r].
  - unfold on_message in H. destruct c.
    + destruct (pc s) eqn:Ep; try discriminate. injection H as <-.
      destruct (loop_top_shape cfg z
                  (set_CURRENT_BUY_AMOUNT (start_buy (inputs cfg)) s))
        as [R|B].
      * left. eapply Rest_pre; [|exact R]. same_effects.
      * right. left. split; [|rewrite Ep; reflexivity].
        destruct B as (amt & m & B1 & B2 & B3 & B4 & B5).
        exists amt, m. repeat (split; [assumption|]).
        eapply extends_pre; [|exact B5]. same_effects.
    + right. right. left.
      destruct (START_SELL s); injection H as <-;
        (split; [reflexivity|]); [same_effects|].
      apply (extends_quiet _ _ [PostMessage [LReceivedSell]]); reflexivity.
    + destruct (IS_DONE s); injection H as <-.
      * right. right. left. split; [reflexivity|same_effects].
      * apply cancel_shape; [reflexivity|reflexivity|].
        apply (extends_quiet _ _ [PostMessage [LReceivedCollect]]);
          reflexivity.
    + destruct (IS_DONE s); injection H as <-.
      * right. right. left. split; [reflexivity|same_effects].
      * apply cancel_shape; [reflexivity|reflexivity|].
        apply (extends_quiet _ _ [PostMessage [LStopped]]); reflexivity.
    + injection H as <-. right. right. left.
      split; [reflexivity|same_effects].
    + injection H as <-. right. right. left.
      split; [reflexivity|same_effects].
  - destruct (pc s) eqn:Ep; try discriminate.
    destruct (cell_pending _ _); [|discriminate]. injection H as <-.
    unfold wake.
    match goal with |- context [loop_top cfg z ?t] =>
      destruct (loop_top_shape cfg z t) as [R|B] end.
    + left. eapply Rest_pre; [|exact R]. same_effects.
    + right. left. split; [|rewrite Ep; reflexivity].
      destruct B as (amt & m & B1 & B2 & B3 & B4 & B5).
      exists amt, m. repeat (split; [assumption|]).
      eapply extends_pre; [|exact B5]. same_effects.
  - destruct (pc s) eqn:Ep; try discriminate. injection H as <-.
    unfold buy_on_bought. destruct r as [sig|er].
    + right. right. right. right. left. exists amt, sig.
      split; [exact Ep|]. split; [reflexivity|].
      apply extends_refl. reflexivity.
    + left. eapply Rest_pre; [|apply pacing_rest]. same_effects.
  - destruct (pc s) eqn:Ep; try discriminate. injection H as <-.
    left. unfold buy_on_balance_change.
    destruct r as [v|er]; cbv zeta beta iota;
      (eapply Rest_pre; [|apply pacing_rest]);
      match goal with |- context [MINT_METADATA ?t] =>
        destruct (MINT_METADATA t) end;
      unfold buy_bookkeeping; setters;
      destruct (IS_SECOND_BUY s); same_effects.
  - destruct (pc s) eqn:Ep; try discriminate. injection H as <-.
    apply sell_on_balance_shape. exact Ep.
  - destruct (pc s) eqn:Ep; try discriminate. injection H as <-.
    left. apply sell_on_sold_rest.
Qed.

Lemma quiet_buy (e : Effect) : is_quiet e = true -> is_buy e = false.
Proof. destruct e; cbn; congruence. Qed.

Lemma quiet_sell (e : Effect) : is_quiet e = true -> is_sell e = false.
Proof. destruct e; cbn; congruence. Qed.

Lemma quiet_sell_attempt (e : Effect) :
  is_quiet e = true -> is_sell_attempt e = false.
Proof. destruct e; cbn; congruence. Qed.

Lemma quiet_set_timeout (e : Effect) :
  is_quiet e = true -> is_set_timeout e = false.
Proof. destruct e; cbn; congruence. Qed.

Lemma quiet_trade (e : Effect) : is_quiet e = true -> is_trade e = false.
Proof. destruct e; cbn; congruence. Qed.

(** The counters of a state after an extension of its effects. *)
Ltac counts He :=
  pose proof (extends_count is_buy _ _ _ quiet_buy He);
  pose proof (extends_count is_sell _ _ _ quiet_sell He);
  pose proof (extends_count is_sell_attempt _ _ _ quiet_sell_attempt He);
  pose proof (extends_count is_set_timeout _ _ _ quiet_set_timeout He);
  pose proof (extends_count is_trade _ _ _ quiet_trade He);
  unfold buys, sells, sell_attempts, sleeps_started, trades in *;
  cbn [filter List.length is_buy is_sell is_sell_attempt is_set_timeout
       is_trade] in *.

(** All the shapes of a step, with their counters. *)
Ltac shapes H :=
  destruct H as [[?Hp ?He ?Hl|?m ?Hp ?Hm ?He|?i ?secs ?Hp ?He]
                |[[(?amt & ?m & ?Hp & ?Hm & ?Hg & ?Hnd & ?He) ?Hw]
                |[[?Hp ?He]
                |[[?Hp ?He]
                |[(?amt & ?sig & ?Hp0 & ?Hp & ?He)
                |(?bal & ?Hp0 & ?Hp & ?He)]]]]];
  match goal with He : extends _ _ _ |- _ => counts He end.










(* ------------------------------------------------------------------ *)
(** *** Once done, no new buy *)
(* ------------------------------------------------------------------ *)



(* ------------------------------------------------------------------ *)
(** *** No trade without metadata *)
(* ------------------------------------------------------------------ *)





(* ------------------------------------------------------------------ *)
(** *** A [sell] during the sleep *)
(* ------------------------------------------------------------------ *)



End WorkerExtra.

(* ================================================================== *)
(** ** The worker with several control loops *)
(* ================================================================== *)

Module ProcessSpec.

Import Worker WorkerSpec WorkerExtra.
Local Open Scope Q_scope.

(* ------------------------------------------------------------------ *)
(** *** Every turn is a step of one loop, the start of a loop, or a
        message that moves no loop *)
(* ------------------------------------------------------------------ *)

Inductive Turned (cfg : WorkerConfig) (z : Q) (a : Arrival)
  (t t' : Process) : Prop :=
| TurnLoop (k : nat) (p : ProgramPoint) :
    is_buy_command a = false ->
    (forall k' e, a = Settled k' e -> k' = k) ->
    nth_error (loops t) k = Some p -> p <> Idle ->
    step cfg z (as_event a) (set_pc p (vars t)) = Some (vars t') ->
    loops t' = set_loop k (pc (vars t')) (loops t) ->
    Turned cfg z a t t'
| TurnStart :
    a = Message CmdBuy ->
    vars t'
    = loop_top cfg z
        (set_CURRENT_BUY_AMOUNT (start_buy (inputs cfg)) (vars t)) ->
    loops t' = loops t ++ [pc (vars t')] ->
    Turned cfg z a t t'
| TurnStay (c : Command) :
    a = Message c -> c <> CmdBuy ->
    loops t' = loops t ->
    counters (vars t') = counters (vars t) ->
    (IS_DONE (vars t) = true -> IS_DONE (vars t') = true) ->
    extends (vars t) (vars t') [] ->
    (pc (vars t') = pc (vars t) \/ pc (vars t') = Crashed) ->
    Turned cfg z a t t'.

Lemma waiter_spec (i : nat) (l : list ProgramPoint) (k : nat) :
  waiter i l = Some k -> nth_error l k = Some (Sleeping i).
Proof.
  revert k. induction l as [|p l IH]; intros k H; [discriminate|].
  cbn [waiter] in H.
  assert (G : option_map S (waiter i l) = Some k ->
              nth_error (p :: l) k = Some (Sleeping i)).
  { destruct (waiter i l) as [k'|]; [|discriminate].
    intros [= <-]. cbn. now apply IH. }
  destruct p; try (exact (G H)).
  destruct (Nat.eqb_spec i sleep_id) as [->|_]; [|exact (G H)].
  injection H as <-. reflexivity.
Qed.

Lemma stay_same (cfg : WorkerConfig) (z : Q) (c : Command) (t : Process) :
  c <> CmdBuy -> Turned cfg z (Message c) t t.
Proof.
  intro Hc. apply (TurnStay cfg z (Message c) t t c); auto.
  apply extends_refl. now rewrite app_nil_r.
Qed.

Lemma cancel_turned (cfg : WorkerConfig) (z : Q) (c : Command) (l : Line)
  (t : Process) :
  c = CmdCollect \/ c = CmdStop ->
  l = match c with CmdCollect => LReceivedCollect | _ => LStopped end ->
  IS_DONE (vars t) = false -> terminated (vars t) = false ->
  Turned cfg z (Message c) t
    (cancel_sleep cfg z
       (mkProcess (set_IS_DONE true (emit (PostMessage [l]) (vars t)))
          (loops t))).
Proof.
  intros Hc Hl Hd Ht.
  assert (Nb : c <> CmdBuy) by (destruct Hc as [-> | ->]; discriminate).
  unfold cancel_sleep. cbn [vars loops]. setters.
  destruct (CANCEL_SLEEP (vars t)) as [i|] eqn:Ec.
  - cbv zeta. cbn [vars loops]. setters.
    assert (Stay : Turned cfg z (Message c) t
              (mkProcess
                 (set_sleeps (update_cell i cancel_cell (sleeps (vars t)))
                    (emit (ClearTimeout i)
                       (set_IS_DONE true
                          (emit (PostMessage [l]) (vars t)))))
                 (loops t))).
    { apply (TurnStay cfg z (Message c) t _ c);
        [reflexivity|exact Nb|reflexivity|reflexivity|reflexivity|
        |left; reflexivity].
      apply (extends_quiet _ _ [PostMessage [l]; ClearTimeout i]);
        [reflexivity|].
      cbn [vars]. setters. now rewrite <- app_assoc. }
    destruct (waiter i (loops t)) as [k|] eqn:Ew; [|exact Stay].
    destruct (negb (cell_resolved i (sleeps (vars t)))) eqn:Er; [|exact Stay].
    unfold resume. cbn [vars loops].
    apply (TurnLoop cfg z (Message c) t _ k (Sleeping i)).
    + destruct Hc as [-> | ->]; reflexivity.
    + intros k' e E. discriminate E.
    + now apply waiter_spec.
    + discriminate.
    + cbn [vars as_event]. unfold step, terminated. setters.
      unfold on_message. setters. rewrite Hd.
      destruct Hc as [-> | ->]; subst l;
        unfold call_CANCEL_SLEEP; setters; rewrite Ec; setters;
        rewrite Nat.eqb_refl, Er; reflexivity.
    + reflexivity.
  - apply (TurnStay cfg z (Message c) t _ c);
      [reflexivity|exact Nb|reflexivity|reflexivity|reflexivity| |].
    + cbn [vars].
      eapply extends_quiet; cycle 1;
        [setters; rewrite <- app_assoc; reflexivity|reflexivity].
    + right. reflexivity.
Qed.

Lemma turn_turned (cfg : WorkerConfig) (z : Q) (a : Arrival)
  (t t' : Process) :
  turn cfg z a t = Some t' ->
  terminated (vars t) = false /\ Turned cfg z a t t'.
Proof.
  unfold turn. destruct (terminated (vars t)) eqn:Ht; [discriminate|].
  intro H. split; [reflexivity|].
  destruct a as [c|k e].
  - injection H as <-. destruct c; cbn [handle].
    + apply TurnStart; reflexivity.
    + destruct (START_SELL (vars t)); [apply stay_same; discriminate|].
      apply (TurnStay cfg z _ t _ CmdSell);
        [reflexivity|discriminate|reflexivity|reflexivity|reflexivity|
        |left; reflexivity].
      apply (extends_quiet _ _ [PostMessage [LReceivedSell]]); reflexivity.
    + destruct (IS_DONE (vars t)) eqn:Hd; [apply stay_same; discriminate|].
      apply (cancel_turned cfg z CmdCollect LReceivedCollect); auto.
    + destruct (IS_DONE (vars t)) eqn:Hd; [apply stay_same; discriminate|].
      apply (cancel_turned cfg z CmdStop LStopped); auto.
    + apply (TurnStay cfg z _ t _ (CmdMint data));
        [reflexivity|discriminate|reflexivity|reflexivity|auto|
        |left; reflexivity].
      apply extends_refl. cbn [vars]. setters. now rewrite app_nil_r.
    + apply stay_same. discriminate.
  - destruct e as [c| |r|r|r|r]; [discriminate H| | | | |];
      (destruct (nth_error (loops t) k) as [p|] eqn:En; [|discriminate H]);
      match type of H with
      | context [step cfg z ?e ?s0] =>
          destruct (step cfg z e s0) as [s|] eqn:Es; [|discriminate H]
      end;
      injection H as <-;
      (apply (TurnLoop cfg z _ t _ k p);
       [reflexivity|intros k' e [= -> _]; reflexivity|exact En|
       |exact Es|reflexivity]);
      intros ->; unfold step, terminated in Es; setters; discriminate Es.
Qed.

(* ------------------------------------------------------------------ *)
(** *** The program points of the loops *)
(* ------------------------------------------------------------------ *)

Lemma total_app (f : ProgramPoint -> nat) (l l' : list ProgramPoint) :
  total f (l ++ l') = (total f l + total f l')%nat.
Proof. induction l as [|p l IH]; cbn [app total]; lia. Qed.

Lemma total_set_loop (f : ProgramPoint -> nat) (k : nat)
  (p p' : ProgramPoint) (l : list ProgramPoint) :
  nth_error l k = Some p ->
  (total f (set_loop k p' l) + f p = total f l + f p')%nat.
Proof.
  revert k. induction l as [|q l IH]; intros [|k] H; try discriminate.
  - injection H as ->. cbn [set_loop total]. lia.
  - cbn [set_loop total]. cbn [nth_error] in H. specialize (IH k H). lia.
Qed.




(* ------------------------------------------------------------------ *)
(** *** The counters over a turn *)
(* ------------------------------------------------------------------ *)



(* ------------------------------------------------------------------ *)
(** *** At the floor (C4) *)
(* ------------------------------------------------------------------ *)



(** The cycles of a worker whose start buy is twice the floor: after two
    successful buys the buy size is at the floor and the next cycle skips
    the buy; a [buy] message received then puts the buy size back to the
    start buy, and the loop it starts buys at once. *)
Lemma buy_command_restarts_buying :
  exists t t' amt,
    run floor_cfg to_the_floor boot = Some t
    /\ CURRENT_BUY_AMOUNT (vars t) <= MIN_BUY_THRESHOLD
    /\ buys (vars t) = 2%nat
    /\ turn floor_cfg 0 (Message CmdBuy) t = Some t'
    /\ buys (vars t') = 3%nat
    /\ loops t' = [Sleeping 2; AwaitBuyToken amt].
Proof.
  eexists. eexists. eexists.
  split; [vm_compute; reflexivity|].
  split; [vm_compute; discriminate|].
  split; [vm_compute; reflexivity|].
  split; [vm_compute; reflexivity|].
  split; vm_compute; reflexivity.
Qed.



(* ------------------------------------------------------------------ *)
(** *** The decay of the buy size (C5) *)
(* ------------------------------------------------------------------ *)







Lemma run_reached (cfg : WorkerConfig) (es : list (Q * Arrival))
  (t t' : Process) :
  reached cfg t -> run cfg es t = Some t' -> reached cfg t'.
Proof.
  revert t. induction es as [|[z a] es IH]; intros t R H; cbn [run] in H.
  - now injection H as <-.
  - destruct (turn cfg z a t) as [t1|] eqn:E; [|discriminate].
    apply (IH t1); [|exact H]. eapply reached_turn; eauto.
Qed.





(* ------------------------------------------------------------------ *)
(** *** The sell of a worker with one loop (C6) *)
(* ------------------------------------------------------------------ *)






(* ------------------------------------------------------------------ *)
(** *** Pacing and selling, loop by loop *)
(* ------------------------------------------------------------------ *)

Lemma total_le (f : ProgramPoint -> nat) (l : list ProgramPoint) :
  (forall p, f p <= 1)%nat -> (total f l <= List.length l)%nat.
Proof.
  intro Hf. induction l as [|p l IH]; cbn [total List.length]; [lia|].
  specialize (Hf p). lia.
Qed.

Lemma start_shape (cfg : WorkerConfig) (z : Q) (t t' : Process) :
  vars t'
  = loop_top cfg z
      (set_CURRENT_BUY_AMOUNT (start_buy (inputs cfg)) (vars t)) ->
  Rest (vars t) (vars t') \/ Buy cfg (vars t) (vars t').
Proof.
  intros ->.
  match goal with |- context [loop_top cfg z ?s0] =>
    destruct (loop_top_shape cfg z s0) as [R|B] end.
  - left. eapply Rest_pre; [|exact R]. same_effects.
  - right. destruct B as (amt & m & B1 & B2 & B3 & B4 & B5).
    exists amt, m. repeat (split; [assumption|]).
    eapply extends_pre; [|exact B5]. same_effects.
Qed.

Lemma set_loop_length (k : nat) (p : ProgramPoint) (l : list ProgramPoint) :
  List.length (set_loop k p l) = List.length l.
Proof.
  revert k. induction l as [|q l IH]; intros [|k]; cbn [set_loop List.length];
    auto.
Qed.

(** One loop per [buy] message. *)
Lemma run_loops (cfg : WorkerConfig) (es : list (Q * Arrival))
  (t t' : Process) :
  run cfg es t = Some t' ->
  List.length (loops t') = (List.length (loops t) + buy_commands es)%nat.
Proof.
  revert t. induction es as [|[z a] es IH]; intros t H; cbn [run] in H.
  - injection H as <-. cbn. lia.
  - destruct (turn cfg z a t) as [t1|] eqn:E; [|discriminate].
    rewrite (IH t1 H). unfold buy_commands. cbn [filter snd].
    destruct (turn_turned _ _ _ _ _ E) as [_ T].
    destruct T as [k p Nb _ _ _ _ Hl|Ea _ Hl|c Ea Hc Hl _ _ _ _].
    + rewrite Nb, Hl, set_loop_length. lia.
    + subst a. rewrite Hl, length_app. cbn. lia.
    + subst a. rewrite Hl.
      destruct c; try (cbn; lia). now destruct Hc.
Qed.

Lemma paced (cfg : WorkerConfig) (t : Process) :
  reached cfg t ->
  (buys (vars t) <= sleeps_started (vars t) + awake (loops t))%nat.
Proof.
  intro R.
  induction R as [|t z a t' _ IH H]; [cbn; lia|].
  destruct (turn_turned _ _ _ _ _ H) as [_ T].
  destruct T as [k p _ Hk Hn Hni Hs Hl|E Hv Hl|c E Hc Hl Hk Hd He Hq].
  - pose proof (step_has_shape _ _ _ _ _ Hs) as Sh.
    pose proof (total_set_loop slack k p (pc (vars t')) _ Hn) as Ht.
    rewrite <- Hl in Ht. fold (awake (loops t')) in Ht.
    fold (awake (loops t)) in Ht.
    assert (Hs1 : (slack p <= 1)%nat) by (destruct p; cbn; lia).
    shapes Sh; unfold count in *; setters; try rewrite Hp0 in *;
      rewrite ?Hp in Ht; cbn [slack] in *; lia.
  - rewrite Hl. unfold awake in *. rewrite total_app. cbn [total].
    destruct (start_shape cfg z t t' Hv)
      as [[Hp He Hx|m Hp Hm He|i secs Hp He]
         |(amt & m & Hp & Hm & Hg & Hnd & He)];
      counts He; rewrite Hp; cbn [slack]; lia.
  - rewrite Hl. counts He. lia.
Qed.

(** Every buy of a loop but its first follows a pacing sleep of that
    loop: after any run of the worker, the buys do not outnumber the
    sleeps started by more than the number of loops that are not asleep,
    and there is one loop per [buy] message received. *)
Theorem buys_are_paced_in_each_loop (cfg : WorkerConfig)
  (es : list (Q * Arrival)) (t : Process) :
  run cfg es boot = Some t ->
  (buys (vars t) <= sleeps_started (vars t) + awake (loops t))%nat
  /\ (awake (loops t) <= List.length (loops t))%nat
  /\ List.length (loops t) = buy_commands es.
Proof.
  intro H. split; [|split].
  - apply (paced cfg). apply (run_reached cfg es boot);
      [apply reached_boot|exact H].
  - apply total_le. intros []; cbn; lia.
  - apply (run_loops cfg es boot t H).
Qed.

Lemma buys_are_paced_in_each_loop_witness :
  (buys (vars (process_after sample_cfg second_buy_run))
   <= sleeps_started (vars (process_after sample_cfg second_buy_run))
      + awake (loops (process_after sample_cfg second_buy_run)))%nat.
Proof.
  refine (proj1 (buys_are_paced_in_each_loop sample_cfg second_buy_run
                   (process_after sample_cfg second_buy_run) _)).
  vm_compute. reflexivity.
Defined.

Lemma sold_once (cfg : WorkerConfig) (t : Process) :
  reached cfg t ->
  (sells (vars t) + sell_budgets (loops t) <= sell_attempts (vars t))%nat
  /\ (sell_attempts (vars t) <= selling (loops t))%nat.
Proof.
  intro R.
  induction R as [|t z a t' _ [IH1 IH2] H]; [cbn; lia|].
  destruct (turn_turned _ _ _ _ _ H) as [_ T].
  destruct T as [k p _ Hk Hn Hni Hs Hl|E Hv Hl|c E Hc Hl Hk Hd He Hq].
  - pose proof (total_set_loop sell_budget k p (pc (vars t')) _ Hn) as Hb.
    pose proof (total_set_loop (fun p => if sell_phase p then 1 else 0)%nat
                  k p (pc (vars t')) _ Hn) as Hg.
    cbv beta in Hg. rewrite <- Hl in Hb, Hg.
    fold (sell_budgets (loops t')) in Hb. fold (sell_budgets (loops t)) in Hb.
    fold (selling (loops t')) in Hg. fold (selling (loops t)) in Hg.
    destruct (sell_phase p) eqn:Sp.
    + destruct (sell_phase_step cfg z _ (set_pc p (vars t)) (vars t') Sp Hs)
        as (Sp' & _ & Ha & Hc).
      rewrite Sp' in Hg. setters.
      change (sells (set_pc p (vars t))) with (sells (vars t)) in Hc.
      change (sell_attempts (set_pc p (vars t)))
        with (sell_attempts (vars t)) in Ha.
      lia.
    + assert (Hb0 : sell_budget p = 0%nat)
        by (destruct p; try reflexivity; discriminate Sp).
      pose proof (step_has_shape _ _ _ _ _ Hs) as Sh.
      shapes Sh; unfold count in *; setters;
        try (rewrite Hp0 in *; try discriminate Sp);
        rewrite ?Hp in Hb, Hg; rewrite ?Sp in Hg;
        cbn [sell_phase sell_budget] in *; lia.
  - rewrite Hl. unfold selling, sell_budgets in *. rewrite !total_app.
    cbn [total].
    destruct (start_shape cfg z t t' Hv)
      as [[Hp He Hx|m Hp Hm He|i secs Hp He]
         |(amt & m & Hp & Hm & Hg & Hnd & He)];
      counts He; rewrite Hp; cbn [sell_phase sell_budget]; lia.
  - rewrite Hl. counts He. lia.
Qed.

(** Every loop enters [sell] at most once and calls [trade.sell_token]
    at most once, from inside that [sell]: after any run of the worker,
    the sells started do not outnumber the loops that are in their sell or
    have ended, the calls of [trade.sell_token], with those still possible,
    do not outnumber the sells started, and there is one loop per [buy]
    message received. *)
Theorem each_loop_sells_once (cfg : WorkerConfig)
  (es : list (Q * Arrival)) (t : Process) :
  run cfg es boot = Some t ->
  (sells (vars t) + sell_budgets (loops t) <= sell_attempts (vars t))%nat
  /\ (sell_attempts (vars t) <= selling (loops t))%nat
  /\ (selling (loops t) <= List.length (loops t))%nat
  /\ List.length (loops t) = buy_commands es.
Proof.
  intro H.
  destruct (sold_once cfg t) as [A B];
    [apply (run_reached cfg es boot); [apply reached_boot|exact H]|].
  split; [exact A|]. split; [exact B|]. split.
  - apply total_le. intro p. destruct (sell_phase p); lia.
  - apply (run_loops cfg es boot t H).
Qed.

Lemma each_loop_sells_once_witness :
  (sell_attempts (vars (process_after sample_cfg second_sell_run))
   <= selling (loops (process_after sample_cfg second_sell_run)))%nat.
Proof.
  refine (proj1 (proj2 (each_loop_sells_once sample_cfg second_sell_run
                          (process_after sample_cfg second_sell_run) _))).
  vm_compute. reflexivity.
Defined.

(* ------------------------------------------------------------------ *)
(** *** One [buy] message: the worker with one loop *)
(* ------------------------------------------------------------------ *)

Lemma set_pc_same (p : ProgramPoint) (s : State) :
  pc s = p -> set_pc p s = s.
Proof. intros <-. destruct s; reflexivity. Qed.

Lemma live_pc (p : ProgramPoint) : p <> Idle -> live p = [p].
Proof. destruct p; try reflexivity. intro H. now destruct H. Qed.

Lemma live_nth (p q : ProgramPoint) (k : nat) :
  nth_error (live p) k = Some q -> p <> Idle /\ k = 0%nat /\ q = p.
Proof.
  destruct p; cbn [live]; destruct k as [|[|k]]; cbn; intro H;
    try discriminate; injection H as <-; repeat split; discriminate.
Qed.

Lemma cancel_one_loop (cfg : WorkerConfig) (z : Q) (s : State) :
  vars (cancel_sleep cfg z (one_loop s)) = call_CANCEL_SLEEP cfg z s
  /\ (terminated (call_CANCEL_SLEEP cfg z s) = false ->
      loops (cancel_sleep cfg z (one_loop s))
      = live (pc (call_CANCEL_SLEEP cfg z s)))
  /\ (pc s = Idle ->
      pc (call_CANCEL_SLEEP cfg z s) = Idle
      \/ terminated (call_CANCEL_SLEEP cfg z s) = true).
Proof.
  unfold cancel_sleep, call_CANCEL_SLEEP, one_loop. cbn [vars loops].
  destruct (CANCEL_SLEEP s) as [i|];
    [|split; [reflexivity|split; [discriminate|right; reflexivity]]].
  cbv zeta. cbn [vars loops].
  destruct (pc s) as [|amt|amt sig|j|  |bal|code| ] eqn:Ep;
    cbn [live waiter option_map];
    try (cbn [vars loops pc set_sleeps emit]; rewrite Ep;
         split; [reflexivity|]; split; [intros _; reflexivity|];
         first [intros _; left; reflexivity|discriminate]).
  destruct (Nat.eqb_spec i j) as [->|Ne]; cbn [andb option_map].
  - destruct (negb (cell_resolved j (sleeps s))) eqn:Er.
    + unfold resume. cbn [vars loops set_loop].
      rewrite (set_pc_same (Sleeping j)) by exact Ep.
      split; [reflexivity|]. split; [|discriminate].
      intros _. symmetry. apply live_pc.
      match goal with |- context [wake cfg z ?s0] =>
        destruct (wake_frame cfg z s0) as (_ & _ & Hi & _) end.
      exact Hi.
    + cbn [vars loops pc set_sleeps emit]. rewrite Ep.
      split; [reflexivity|]. split; [|discriminate].
      intros _. reflexivity.
  - cbn [vars loops pc set_sleeps emit]. rewrite Ep.
    split; [reflexivity|]. split; [|discriminate]. intros _. reflexivity.
Qed.

Lemma as_one_loop (t : Process) :
  loops t = live (pc (vars t)) -> t = one_loop (vars t).
Proof. destruct t as [s l]. cbn. now intros ->. Qed.

Lemma one_loop_turn (cfg : WorkerConfig) (z : Q) (a : Arrival)
  (s : State) (t' : Process) :
  (is_buy_command a = true -> pc s = Idle) ->
  turn cfg z a (one_loop s) = Some t' ->
  step cfg z (as_event a) s = Some (vars t')
  /\ (terminated (vars t') = false -> t' = one_loop (vars t'))
  /\ (pc s = Idle -> is_buy_command a = false ->
      pc (vars t') = Idle \/ terminated (vars t') = true)
  /\ (pc s <> Idle -> pc (vars t') <> Idle).
Proof.
  intros Hb H.
  assert (Ht : terminated s = false).
  { unfold turn in H. cbn [one_loop vars] in H.
    destruct (terminated s); [discriminate|reflexivity]. }
  assert (One : forall s1 l, l = live (pc s1) -> mkProcess s1 l = one_loop s1)
    by (intros s1 l ->; reflexivity).
  destruct a as [c|k e].
  - unfold turn in H. cbn [one_loop vars] in H. rewrite Ht in H.
    injection H as <-. cbn [as_event]. unfold step. rewrite Ht.
    unfold on_message.
    destruct c; cbn [handle one_loop vars loops].
    + rewrite (Hb eq_refl). cbn [vars live app].
      split; [reflexivity|].
      match goal with |- context [loop_top cfg z ?s0] =>
        destruct (loop_top_frame cfg z s0) as (_ & _ & Hi & _) end.
      split; [intros _; apply One; cbn [vars]; symmetry; now apply live_pc|].
      split; [discriminate|]. intros _. exact Hi.
    + destruct (START_SELL s); cbn [vars];
        (split; [reflexivity|]); (split; [intros _; apply One; reflexivity|]);
        (split; [intros E _; left; exact E|intro E; exact E]).
    + destruct (IS_DONE s) eqn:Hd; cbn [vars].
      * split; [reflexivity|]. split; [intros _; apply One; reflexivity|].
        split; [intros E _; left; exact E|intro E; exact E].
      * destruct (cancel_one_loop cfg z
                    (set_IS_DONE true
                       (emit (PostMessage [LReceivedCollect]) s)))
          as (A & B & C).
        unfold one_loop in A, B. cbn [pc set_IS_DONE emit] in A, B, C.
        rewrite <- A in B, C |- *. split; [reflexivity|].
        split; [intro T; apply as_one_loop; apply B; exact T|].
        split; [intros E _; apply C; exact E|].
        intro E. rewrite A.
        match goal with |- pc (call_CANCEL_SLEEP cfg z ?s0) <> Idle =>
          destruct (cancel_frame cfg z s0) as (_ & _ & Hi); [exact E|exact Hi]
        end.
    + destruct (IS_DONE s) eqn:Hd; cbn [vars].
      * split; [reflexivity|]. split; [intros _; apply One; reflexivity|].
        split; [intros E _; left; exact E|intro E; exact E].
      * destruct (cancel_one_loop cfg z
                    (set_IS_DONE true (emit (PostMessage [LStopped]) s)))
          as (A & B & C).
        unfold one_loop in A, B. cbn [pc set_IS_DONE emit] in A, B, C.
        rewrite <- A in B, C |- *. split; [reflexivity|].
        split; [intro T; apply as_one_loop; apply B; exact T|].
        split; [intros E _; apply C; exact E|].
        intro E. rewrite A.
        match goal with |- pc (call_CANCEL_SLEEP cfg z ?s0) <> Idle =>
          destruct (cancel_frame cfg z s0) as (_ & _ & Hi); [exact E|exact Hi]
        end.
    + cbn [vars]. split; [reflexivity|].
      split; [intros _; apply One; reflexivity|].
      split; [intros E _; left; exact E|intro E; exact E].
    + cbn [vars]. split; [reflexivity|].
      split; [intros _; apply One; reflexivity|].
      split; [intros E _; left; exact E|intro E; exact E].
  - destruct (turn_turned _ _ _ _ _ H) as [_ T].
    destruct T as [k0 p _ Hk Hn Hni Hs Hl|E _ _|c E _ _ _ _ _ _];
      try discriminate E.
    cbn [one_loop vars loops] in *.
    destruct (live_nth _ _ _ Hn) as (Hi & -> & ->).
    rewrite (set_pc_same (pc s)) in Hs by reflexivity.
    cbn [as_event] in *. split; [exact Hs|].
    destruct (step_frame cfg z _ s (vars t') Hs Hi) as (_ & Hi' & _).
    split; [|split; [intro E; contradiction|intros _; exact Hi']].
    intros _. destruct t' as [s' l']. cbn [vars loops] in *.
    apply One. rewrite Hl, (live_pc _ Hi), (live_pc _ Hi'). reflexivity.
Qed.

Lemma terminated_run (cfg : WorkerConfig) (es : list (Q * Arrival))
  (t t' : Process) :
  terminated (vars t) = true -> run cfg es t = Some t' -> es = [] /\ t' = t.
Proof.
  intros Ht H. destruct es as [|[z a] es]; cbn [run] in H.
  - injection H as <-. auto.
  - unfold turn in H. rewrite Ht in H. discriminate H.
Qed.

Lemma one_loop_run (cfg : WorkerConfig) (es : list (Q * Arrival))
  (s : State) (t' : Process) :
  (if match pc s with Idle => true | _ => false end
   then buy_commands es <= 1 else buy_commands es = 0)%nat ->
  run cfg es (one_loop s) = Some t' ->
  exec cfg (as_events es) s = Some (vars t')
  /\ (terminated (vars t') = false -> t' = one_loop (vars t')).
Proof.
  revert s. induction es as [|[z a] es IH]; intros s Hn H;
    cbn [run as_events map fst snd exec] in *.
  - injection H as <-. split; [reflexivity|]. intros _. reflexivity.
  - destruct (turn cfg z a (one_loop s)) as [t1|] eqn:E; [|discriminate].
    unfold buy_commands in Hn. cbn [filter snd] in Hn.
    assert (Hb : is_buy_command a = true -> pc s = Idle).
    { intro B. rewrite B in Hn. cbn [List.length] in Hn.
      destruct (pc s); try reflexivity; discriminate Hn. }
    destruct (one_loop_turn cfg z a s t1 Hb E) as (Hs & Hl & Hi & Hni).
    fold (as_events es). rewrite Hs.
    destruct (terminated (vars t1)) eqn:Ht.
    + destruct (terminated_run cfg es t1 t' Ht H) as [-> ->].
      cbn [as_events map exec]. split; [reflexivity|].
      intro T. congruence.
    + rewrite (Hl eq_refl) in H. apply IH; [|exact H].
      unfold buy_commands.
      destruct (is_buy_command a) eqn:B.
      * cbn [List.length] in Hn. rewrite (Hb eq_refl) in Hn, Hni.
        destruct (pc (vars t1)); lia.
      * destruct (pc s) eqn:Ep;
          [destruct (Hi eq_refl eq_refl) as [Hx|Hx];
           [rewrite Hx; exact Hn|congruence]|..];
          (destruct (pc (vars t1));
           [exfalso; apply Hni; [discriminate|reflexivity]|..]; exact Hn).
Qed.

(** As long as the worker receives one [buy] message at most, it is the
    worker with one loop: every run of the process is, event by event, a
    run of [step] from the initial state, with the same module variables
    and effects, and the only loop is at the program point of [step]. *)
Theorem one_buy_message_is_one_loop (cfg : WorkerConfig)
  (es : list (Q * Arrival)) (t : Process) :
  (buy_commands es <= 1)%nat -> run cfg es boot = Some t ->
  exec cfg (as_events es) init = Some (vars t)
  /\ reachable cfg (vars t)
  /\ (terminated (vars t) = false -> loops t = live (pc (vars t))).
Proof.
  intros Hn H.
  destruct (one_loop_run cfg es init t Hn H) as [He Hl].
  split; [exact He|].
  split; [apply (exec_reachable cfg (as_events es) init);
          [apply reach_init|exact He]|].
  intro T. rewrite (Hl T) at 1. reflexivity.
Qed.

Lemma one_buy_message_is_one_loop_witness :
  exec sample_cfg (as_events (of_first_loop two_buys_run)) init
  = Some (vars (process_after sample_cfg (of_first_loop two_buys_run))).
Proof.
  refine (proj1 (one_buy_message_is_one_loop sample_cfg
                   (of_first_loop two_buys_run)
                   (process_after sample_cfg (of_first_loop two_buys_run))
                   _ _)).
  - vm_compute. lia.
  - vm_compute. reflexivity.
Defined.

Lemma step_is_turn (cfg : WorkerConfig) (z : Q) (e : Event)
  (s s' : State) :
  step cfg z e s = Some s' ->
  exists t',
    turn cfg z (as_arrival e) (one_loop s) = Some t'
    /\ vars t' = s'
    /\ (terminated s' = false -> t' = one_loop s').
Proof.
  intro H.
  assert (Ht : terminated s = false)
    by (unfold step in H; destruct (terminated s);
        [discriminate|reflexivity]).
  assert (G : forall t',
            turn cfg z (as_arrival e) (one_loop s) = Some t' ->
            (is_buy_command (as_arrival e) = true -> pc s = Idle) ->
            as_event (as_arrival e) = e ->
            exists t' : Process,
              turn cfg z (as_arrival e) (one_loop s) = Some t'
              /\ vars t' = s'
              /\ (terminated s' = false -> t' = one_loop s')).
  { intros t' E Hb Ee. exists t'. split; [exact E|].
    destruct (one_loop_turn cfg z _ s t' Hb E) as (Hs & Hl & _).
    rewrite Ee, H in Hs. injection Hs as ->. split; [reflexivity|exact Hl]. }
  destruct e as [c| |r|r|r|r]; cbn [as_arrival];
    [apply (G (handle cfg z c (one_loop s)));
     [unfold turn; cbn [one_loop vars]; now rewrite Ht
     |intro B; destruct c; try discriminate B;
      unfold step in H; rewrite Ht in H; unfold on_message in H;
      destruct (pc s); try discriminate H; reflexivity
     |reflexivity]
    |..];
    (cbn [as_arrival] in G; unfold turn in G |- *;
     cbn [one_loop vars loops] in *; rewrite Ht in *;
     unfold step in H; rewrite Ht in H;
     destruct (pc s) eqn:Ep; try discriminate H;
     cbn [live nth_error] in *; rewrite <- Ep in *;
     rewrite (set_pc_same (pc s)) in * by reflexivity;
     unfold step in G |- *; rewrite Ht in *; rewrite Ep in *;
     try (destruct (cell_pending _ _); [|discriminate H]);
     eapply G; [reflexivity|discriminate|reflexivity]).
Qed.

(** The worker with one loop is the worker: every state that [step]
    reaches from the initial state is reached by the process, with the
    same module variables and effects and the loop at the same program
    point. *)
Theorem one_loop_states_are_reached (cfg : WorkerConfig) (s : State) :
  reachable cfg s ->
  exists t,
    reached cfg t /\ vars t = s
    /\ (terminated s = false -> t = one_loop s).
Proof.
  induction 1 as [|s z e s' _ (t & Rt & Ev & El) H].
  - exists boot. split; [apply reached_boot|]. split; reflexivity.
  - assert (Ht : terminated s = false)
      by (unfold step in H; destruct (terminated s);
          [discriminate|reflexivity]).
    destruct (step_is_turn cfg z e s s' H) as (t' & Et & Ev' & El').
    exists t'. rewrite <- (El Ht) in Et.
    split; [eapply reached_turn; eauto|]. split; assumption.
Qed.

Lemma one_loop_states_are_reached_witness :
  exists t,
    reached sample_cfg t /\ vars t = state_after sample_cfg sleeping_run.
Proof.
  destruct (one_loop_states_are_reached sample_cfg
              (state_after sample_cfg sleeping_run))
    as (t & A & B & _).
  - apply (exec_reachable sample_cfg sleeping_run init).
    + apply reach_init.
    + vm_compute. reflexivity.
  - exists t. split; assumption.
Defined.

End ProcessSpec.

(* ================================================================== *)
(** ** More properties of the detector *)
(* ================================================================== *)

Module DetectorExtra.

Import Detector DetectorSpec.

Section Callback.

Variable decode_metaplex_instr : string -> option (MetaData * Z).
Variable new_PublicKey : string -> option PublicKey.
Variables token_name token_ticker : string.

Abbreviation visit' :=
  (visit decode_metaplex_instr new_PublicKey token_name token_ticker).
Abbreviation visit_bot' :=
  (visit_bot decode_metaplex_instr token_name token_ticker).
Abbreviation is_match' :=
  (is_match decode_metaplex_instr token_name token_ticker).
Abbreviation tx_matches' :=
  (tx_matches decode_metaplex_instr token_name token_ticker).
Abbreviation on_logs' :=
  (on_logs decode_metaplex_instr new_PublicKey token_name token_ticker).
Abbreviation on_logs_bot' :=
  (on_logs_bot decode_metaplex_instr token_name token_ticker).

(* ------------------------------------------------------------------ *)
(** *** The loops *)
(* ------------------------------------------------------------------ *)

Lemma for_instructions_app
  (body : Instruction -> option PublicKey -> Completion)
  (l1 l2 : list Instruction) (m : option PublicKey) :
  for_instructions body (l1 ++ l2) m
  = match for_instructions body l1 m with
    | Normal m' => for_instructions body l2 m'
    | Throw m' => Throw m'
    end.
Proof.
  revert m. induction l1 as [|i l1 IH]; intro m; [reflexivity|].
  cbn [app for_instructions]. destruct (body i m); [apply IH|reflexivity].
Qed.

Lemma for_inner_concat
  (body : Instruction -> option PublicKey -> Completion)
  (ll : list (list Instruction)) (m : option PublicKey) :
  for_inner body ll m = for_instructions body (List.concat ll) m.
Proof.
  revert m. induction ll as [|l ll IH]; intro m; [reflexivity|].
  cbn [for_inner List.concat]. rewrite for_instructions_app.
  destruct (for_instructions body l m); [apply IH|reflexivity].
Qed.

Lemma for_instructions_filter
  (body : Instruction -> option PublicKey -> Completion)
  (p : Instruction -> bool) (l : list Instruction) (m : option PublicKey) :
  (forall i m0, p i = false -> body i m0 = Normal m0) ->
  for_instructions body l m = for_instructions body (filter p l) m.
Proof.
  intro Hp. revert m. induction l as [|i l IH]; intro m; [reflexivity|].
  cbn [for_instructions filter]. destruct (p i) eqn:E.
  - cbn [for_instructions]. destruct (body i m); [apply IH|reflexivity].
  - rewrite (Hp i m E). apply IH.
Qed.

Lemma for_instructions_ext
  (body body' : Instruction -> option PublicKey -> Completion)
  (l : list Instruction) (m : option PublicKey) :
  (forall i m0, body i m0 = body' i m0) ->
  for_instructions body l m = for_instructions body' l m.
Proof.
  intro H. revert m. induction l as [|i l IH]; intro m; [reflexivity|].
  cbn [for_instructions]. rewrite H. destruct (body' i m);
    [apply IH|reflexivity].
Qed.

Lemma visit_skips (balances : list TokenBalance) (i : Instruction)
  (m : option PublicKey) :
  is_metaplex i = false -> visit' balances i m = Normal m.
Proof. unfold visit, is_metaplex. now intros ->. Qed.

Lemma visit_bot_skips (i : Instruction) (m : option PublicKey) :
  is_metaplex i = false -> visit_bot' i m = Normal m.
Proof. unfold visit_bot, is_metaplex. now intros ->. Qed.

(** The two nested loops of either callback are one pass, in order, over
    the instructions of the metadata program; those of other programs
    are not looked at. *)
Theorem scan_reads_metadata_instructions_only
  (balances : list TokenBalance) (ll : list (list Instruction))
  (m : option PublicKey) :
  for_inner (visit' balances) ll m
  = for_instructions (visit' balances)
      (filter is_metaplex (List.concat ll)) m
  /\ for_inner visit_bot' ll m
     = for_instructions visit_bot' (filter is_metaplex (List.concat ll)) m.
Proof.
  rewrite !for_inner_concat. split.
  - apply for_instructions_filter. intros i m0. apply visit_skips.
  - apply for_instructions_filter. intros i m0. apply visit_bot_skips.
Qed.

(* ------------------------------------------------------------------ *)
(** *** From the notification to the loops *)
(* ------------------------------------------------------------------ *)

Lemma on_logs_scan (n : Notification) (d : State)
  (balances : list TokenBalance) (inner : list (list Instruction))
  (keys : list AccountKey) :
  scan_input n = Some (balances, inner, keys) ->
  on_logs' n d
  = conclude n keys (for_inner (visit' balances) inner (mint d)) d
  /\ on_logs_bot' n d
     = conclude n keys (for_inner visit_bot' inner (mint d)) d
  /\ instructions_of n = List.concat inner.
Proof.
  unfold scan_input, on_logs, on_logs_bot, instructions_of.
  destruct (err n); [discriminate|].
  destruct (has_mint_to (logs n)); [|discriminate].
  destruct (fetched n) as [[tx|]|]; try discriminate.
  destruct (meta tx) as [tm|]; [|discriminate].
  destruct (message tx) as [ks|]; [|discriminate].
  destruct (postTokenBalances tm) as [bs|]; [|discriminate].
  destruct (innerInstructions tm) as [inn|]; [|discriminate].
  intros [= <- <- <-]. auto.
Qed.

Lemma on_logs_no_scan (n : Notification) (d : State) :
  scan_input n = None ->
  on_logs' n d = (d, false) \/ on_logs' n d = (log_error d, false).
Proof.
  unfold scan_input, on_logs.
  destruct (err n); [auto|].
  destruct (has_mint_to (logs n)); [|auto].
  destruct (fetched n) as [[tx|]|]; auto.
  destruct (meta tx) as [tm|]; [|auto].
  destruct (message tx) as [ks|]; [|auto].
  destruct (postTokenBalances tm) as [bs|]; [|auto].
  destruct (innerInstructions tm) as [inn|]; [|auto].
  discriminate.
Qed.

(* ------------------------------------------------------------------ *)
(** *** An empty [postTokenBalances] *)
(* ------------------------------------------------------------------ *)

Lemma visit_empty (i : Instruction) (m : option PublicKey) :
  (visit' [] i m = Normal m \/ visit' [] i m = Throw m)
  /\ (is_match' i = true -> visit' [] i m = Throw m).
Proof.
  unfold visit, is_match.
  destruct (String.eqb (programId_of i) metaplexProgramID); cbn [negb andb];
    [|split; [auto|discriminate]].
  destruct i as [p|p accounts data]; [split; [auto|discriminate]|].
  destruct (decode_metaplex_instr data) as [[md bytes_read]|];
    [|split; [auto|discriminate]].
  destruct (Z.leb_spec bytes_read 0) as [Hb|Hb].
  - split; [auto|]. destruct (Z.ltb_spec 0 bytes_read); [lia|discriminate].
  - destruct (matches token_name token_ticker md);
      [split; auto|split; [auto|]].
    rewrite andb_false_r. discriminate.
Qed.

Lemma scan_empty (l : list Instruction) (m : option PublicKey) :
  (for_instructions (visit' []) l m = Normal m
   \/ for_instructions (visit' []) l m = Throw m)
  /\ (existsb is_match' l = true ->
      for_instructions (visit' []) l m = Throw m).
Proof.
  induction l as [|i l (IH1 & IH2)]; [split; [auto|discriminate]|].
  cbn [for_instructions existsb].
  destruct (visit_empty i m) as ([E|E] & Hm); rewrite E.
  - split; [exact IH1|]. intro H. apply orb_true_iff in H.
    destruct H as [H|H]; [apply Hm in H; congruence|now apply IH2].
  - split; auto.
Qed.

(** In the pool utilities' callback, a transaction whose
    [postTokenBalances] is an empty list never changes the candidate;
    if it creates the target asset, reading the first balance throws: the
    error is logged and the callback does not unsubscribe, whoever
    signed. *)
Theorem empty_balances_hide_the_asset (n : Notification) (d : State)
  (inner : list (list Instruction)) (keys : list AccountKey) :
  scan_input n = Some ([], inner, keys) ->
  mint (fst (on_logs' n d)) = mint d
  /\ (tx_matches' n = true -> on_logs' n d = (log_error d, false)).
Proof.
  intro H. destruct (on_logs_scan n d [] inner keys H) as (E & _ & Ei).
  rewrite E. unfold tx_matches. rewrite Ei, for_inner_concat.
  destruct (scan_empty (List.concat inner) (mint d)) as ([F|F] & G).
  - split.
    + rewrite F. apply (conclude_spec n keys (Normal (mint d)) d).
    + intro M. rewrite (G M) in F. discriminate F.
  - rewrite F. split; [reflexivity|]. intros _. reflexivity.
Qed.

(* ------------------------------------------------------------------ *)
(** *** A payload that does not decode *)
(* ------------------------------------------------------------------ *)

Lemma scan_undecodable
  (body : Instruction -> option PublicKey -> Completion)
  (l : list Instruction) (m : option PublicKey) :
  (forall i m0,
      undecodable decode_metaplex_instr i = true ->
      body i m0 = Throw m0) ->
  existsb (undecodable decode_metaplex_instr) l = true ->
  exists m', for_instructions body l m = Throw m'.
Proof.
  intros Hb. revert m. induction l as [|i l IH]; intros m H;
    [discriminate|].
  cbn [existsb for_instructions] in *.
  destruct (undecodable decode_metaplex_instr i) eqn:U.
  - rewrite (Hb i m U). eauto.
  - cbn [orb] in H. destruct (body i m) as [m1|m1]; [now apply IH|eauto].
Qed.

Lemma visit_undecodable (balances : list TokenBalance) (i : Instruction)
  (m : option PublicKey) :
  undecodable decode_metaplex_instr i = true ->
  visit' balances i m = Throw m.
Proof.
  unfold undecodable, is_metaplex, visit.
  destruct (String.eqb (programId_of i) metaplexProgramID); [|discriminate].
  cbn [andb negb]. destruct i as [p|p accounts data]; [reflexivity|].
  destruct (decode_metaplex_instr data); [discriminate|reflexivity].
Qed.

Lemma visit_bot_undecodable (i : Instruction) (m : option PublicKey) :
  undecodable decode_metaplex_instr i = true -> visit_bot' i m = Throw m.
Proof.
  unfold undecodable, is_metaplex, visit_bot.
  destruct (String.eqb (programId_of i) metaplexProgramID); [|discriminate].
  cbn [andb negb]. destruct i as [p|p accounts data]; [reflexivity|].
  destruct (decode_metaplex_instr data); [discriminate|reflexivity].
Qed.

Lemma conclude_throw (n : Notification) (keys : list AccountKey)
  (m : option PublicKey) (d : State) :
  conclude n keys (Throw m) d = (log_error (set_mint m d), false).
Proof. reflexivity. Qed.

(** A metadata instruction whose payload does not decode is not skipped:
    it ends the scan of its transaction with a logged error, and neither
    version of the callback unsubscribes on that transaction, even when it
    also creates the target asset and is signed by it. *)
Theorem undecodable_instruction_blocks_the_transaction
  (n : Notification) (d : State) (balances : list TokenBalance)
  (inner : list (list Instruction)) (keys : list AccountKey) :
  scan_input n = Some (balances, inner, keys) ->
  existsb (undecodable decode_metaplex_instr) (List.concat inner) = true ->
  (snd (on_logs' n d) = false
   /\ errors (fst (on_logs' n d)) = S (errors d)
   /\ subscriptionID (fst (on_logs' n d)) = subscriptionID d)
  /\ (snd (on_logs_bot' n d) = false
      /\ errors (fst (on_logs_bot' n d)) = S (errors d)
      /\ subscriptionID (fst (on_logs_bot' n d)) = subscriptionID d).
Proof.
  intros H U.
  destruct (on_logs_scan n d balances inner keys H) as (E & Eb & _).
  rewrite E, Eb, !for_inner_concat.
  destruct (scan_undecodable (visit' balances) (List.concat inner) (mint d)
              (fun i m0 => visit_undecodable balances i m0) U) as [m1 F1].
  destruct (scan_undecodable visit_bot' (List.concat inner) (mint d)
              visit_bot_undecodable U) as [m2 F2].
  rewrite F1, F2, !conclude_throw. repeat split.
Qed.

(* ------------------------------------------------------------------ *)
(** *** The subscription *)
(* ------------------------------------------------------------------ *)

Lemma conclude_subscription (n : Notification) (keys : list AccountKey)
  (c : Completion) (d : State) :
  (errors d <= errors (fst (conclude n keys c d)))%nat
  /\ (subscriptionID (fst (conclude n keys c d)) = subscriptionID d
      \/ (subscriptionID (fst (conclude n keys c d)) = None
          /\ snd (conclude n keys c d) = true
          /\ removal_succeeds n = true)).
Proof.
  unfold conclude. destruct c as [m|m]; [|cbn; split; [lia|auto]].
  destruct (signed_by keys m); [|cbn; split; [lia|auto]].
  cbn [fst snd]. unfold wait_drop_unsub. cbn [subscriptionID set_mint].
  destruct (subscriptionID d) eqn:S; [|cbn; rewrite S; split; [lia|auto]].
  destruct (removal_succeeds n); cbn; split; try lia; auto.
Qed.

Lemma callback_subscription (cb : Notification -> State -> State * bool)
  (n : Notification) (d : State) :
  cb = on_logs' \/ cb = on_logs_bot' ->
  (errors d <= errors (fst (cb n d)))%nat
  /\ (subscriptionID (fst (cb n d)) = subscriptionID d
      \/ (subscriptionID (fst (cb n d)) = None
          /\ snd (cb n d) = true /\ removal_succeeds n = true)).
Proof.
  intros [-> | ->]; unfold on_logs, on_logs_bot;
    (destruct (err n); [cbn; split; [lia|auto]|]);
    (destruct (has_mint_to (logs n)); [|cbn; split; [lia|auto]]);
    (destruct (fetched n) as [[tx|]|]; try (cbn; split; [lia|auto]));
    (destruct (meta tx) as [tm|]; [|cbn; split; [lia|auto]]);
    (destruct (message tx) as [ks|]; [|cbn; split; [lia|auto]]).
  - destruct (postTokenBalances tm) as [bs|]; [|cbn; split; [lia|auto]].
    destruct (innerInstructions tm) as [inn|]; [|cbn; split; [lia|auto]].
    apply conclude_subscription.
  - destruct (innerInstructions tm) as [inn|]; [|cbn; split; [lia|auto]].
    apply conclude_subscription.
Qed.

(** Neither callback ever subscribes again or loses an error: a
    notification leaves the subscription as it is unless the callback
    unsubscribed and the removal succeeded, and over any sequence of
    notifications a removed subscription stays removed and the error
    count never decreases. *)
Theorem subscription_is_only_removed
  (cb : Notification -> State -> State * bool) :
  cb = on_logs' \/ cb = on_logs_bot' ->
  (forall n d,
      subscriptionID (fst (cb n d)) = subscriptionID d
      \/ (subscriptionID (fst (cb n d)) = None
          /\ snd (cb n d) = true /\ removal_succeeds n = true))
  /\ (forall ns d,
        (subscriptionID d = None -> subscriptionID (observe cb ns d) = None)
        /\ (errors d <= errors (observe cb ns d))%nat).
Proof.
  intro Hcb. split.
  - intros n d. apply (callback_subscription cb n d Hcb).
  - intros ns. induction ns as [|n ns IH]; intro d; cbn [observe];
      [split; [auto|lia]|].
    destruct (callback_subscription cb n d Hcb) as [He Hs].
    destruct (IH (fst (cb n d))) as [IH1 IH2]. split; [|lia].
    intro Hn. apply IH1. destruct Hs as [Hs|(Hs & _)]; congruence.
Qed.

(* ------------------------------------------------------------------ *)
(** *** The two versions of the callback *)
(* ------------------------------------------------------------------ *)

Lemma visit_falls_back (b : TokenBalance) (rest : list TokenBalance)
  (i : Instruction) (m : option PublicKey) :
  truthy (tb_mint b) = false -> visit' (b :: rest) i m = visit_bot' i m.
Proof.
  intro Hb. unfold visit, visit_bot. rewrite Hb. reflexivity.
Qed.

(** When the first token balance of the transaction names no mint, the
    callback of the pool utilities does exactly what the one of [bot.ts]
    does: the candidate is the second account of the matching
    instruction. *)
Theorem versions_agree_without_balance_mint (n : Notification) (d : State)
  (b : TokenBalance) (rest : list TokenBalance)
  (inner : list (list Instruction)) (keys : list AccountKey) :
  scan_input n = Some (b :: rest, inner, keys) ->
  truthy (tb_mint b) = false ->
  on_logs' n d = on_logs_bot' n d.
Proof.
  intros H Hb.
  destruct (on_logs_scan n d (b :: rest) inner keys H) as (E & Eb & _).
  rewrite E, Eb, !for_inner_concat. f_equal.
  apply for_instructions_ext. intros i m0. now apply visit_falls_back.
Qed.

End Callback.

Lemma empty_balances_hide_the_asset_witness :
  on_logs sample_decode sample_new_PublicKey "Foo" "FOO"
    creation_without_balances subscribed
  = (log_error subscribed, false).
Proof.
  refine (proj2 (empty_balances_hide_the_asset sample_decode
                   sample_new_PublicKey "Foo" "FOO"
                   creation_without_balances subscribed _ _ _) _).
  - reflexivity.
  - reflexivity.
Defined.

Lemma undecodable_instruction_blocks_the_transaction_witness :
  snd (on_logs sample_decode sample_new_PublicKey "Foo" "FOO"
         creation_after_garbage subscribed) = false.
Proof.
  refine (proj1 (proj1 (undecodable_instruction_blocks_the_transaction
                          sample_decode sample_new_PublicKey "Foo" "FOO"
                          creation_after_garbage subscribed _ _ _ _ _))).
  - reflexivity.
  - reflexivity.
Defined.

Lemma subscription_is_only_removed_witness :
  subscriptionID
    (observe (on_logs sample_decode sample_new_PublicKey "Foo" "FOO")
       [creation_unsigned; unrelated_signed]
       (mkState None None 0))
  = None.
Proof.
  refine (proj1 (proj2 (subscription_is_only_removed sample_decode
                          sample_new_PublicKey "Foo" "FOO"
                          (on_logs sample_decode sample_new_PublicKey
                             "Foo" "FOO") _)
                   [creation_unsigned; unrelated_signed]
                   (mkState None None 0)) _).
  - left. reflexivity.
  - reflexivity.
Defined.

Lemma versions_agree_without_balance_mint_witness :
  on_logs sample_decode sample_new_PublicKey "Foo" "FOO"
    creation_signed subscribed
  = on_logs_bot sample_decode "Foo" "FOO" creation_signed subscribed.
Proof.
  refine (versions_agree_without_balance_mint sample_decode
            sample_new_PublicKey "Foo" "FOO" creation_signed subscribed
            _ _ _ _ _ _).
  - reflexivity.
  - reflexivity.
Defined.

End DetectorExtra.

(* ================================================================== *)
(** ** More properties of the worker pool *)
(* ================================================================== *)

Module PoolExtra.

Import Pool PoolSpec.
Local Open Scope Z_scope.

(* ------------------------------------------------------------------ *)
(** *** The workers and their endpoints *)
(* ------------------------------------------------------------------ *)

Lemma even_of_nat (k : nat) : Z.even (Z.of_nat k) = Nat.even k.
Proof.
  assert (H : Z.even (Z.of_nat k) = Nat.even k
              /\ Z.even (Z.of_nat (S k)) = Nat.even (S k)).
  { induction k as [|k [IH1 IH2]]; [split; reflexivity|].
    split; [exact IH2|].
    rewrite !Nat2Z.inj_succ, Z.even_succ_succ. exact IH1. }
  apply H.
Qed.

Lemma endpoint_of_index (k : nat) :
  Worker.connection_endpoint (Z.of_nat k + 1)
  = if Nat.even k then Worker.RPC_OTHER else Worker.RPC.
Proof.
  unfold Worker.connection_endpoint.
  rewrite Z.rem_mod_nonneg by lia.
  rewrite <- Zeven_mod, Z.even_add, even_of_nat.
  destruct (Nat.even k); reflexivity.
Qed.

Lemma new_workers_nth (config : BotConfig) (secrets : list Secret)
  (n k : nat) (w : WorkerPromise) :
  nth_error (map (new_worker config secrets) (seq 0 n)) k = Some w ->
  (k < n)%nat /\ w = new_worker config secrets k.
Proof.
  rewrite nth_error_map, nth_error_seq.
  destruct (Nat.ltb_spec k n); [|discriminate].
  cbn. intros [= <-]. auto.
Qed.

(** The workers [start_workers] starts take the two endpoints in turn:
    the first, third, ... connect to [RPC_OTHER], the second, fourth, ...
    to [RPC], since the identifiers start at 1 and the worker picks [RPC]
    for an even one. *)
Theorem workers_alternate_endpoints (config : BotConfig)
  (secrets : list Secret) (workers : list WorkerPromise) :
  secrets <> [] ->
  exists ws,
    start_workers config secrets workers = Started (workers ++ ws)
    /\ forall k w,
         nth_error ws k = Some w ->
         Worker.connection_endpoint (id (worker w))
         = if Nat.even k then Worker.RPC_OTHER else Worker.RPC.
Proof.
  intro H. rewrite (start_workers_spec config secrets workers H).
  eexists. split; [reflexivity|]. intros k w Hw.
  apply new_workers_nth in Hw. destruct Hw as [_ ->].
  cbn [new_worker worker id]. apply endpoint_of_index.
Qed.

Lemma workers_alternate_endpoints_witness :
  exists ws,
    start_workers three_threads one_key [] = Started ([] ++ ws)
    /\ forall k w,
         nth_error ws k = Some w ->
         Worker.connection_endpoint (id (worker w))
         = if Nat.even k then Worker.RPC_OTHER else Worker.RPC.
Proof.
  apply (workers_alternate_endpoints three_threads one_key []).
  discriminate.
Defined.

(** A number of bots that the prompt accepts for the keys at hand makes
    [start_workers] start at least one worker and no more than there are
    keys, every one with the key of its position, and no two with the
    same identifier. *)
Theorem accepted_count_gives_keyed_workers (config : BotConfig)
  (secrets : list Secret) (workers : list WorkerPromise) :
  validate_number (Some (thread_cnt config)) (Some 0)
    (Some (Z.of_nat (List.length secrets))) = true ->
  exists ws,
    start_workers config secrets workers = Started (workers ++ ws)
    /\ (0 < List.length ws <= List.length secrets)%nat
    /\ (forall k w,
          nth_error ws k = Some w ->
          exists key,
            nth_error secrets k = Some key
            /\ secret (worker w) = Some key)
    /\ NoDup (map (fun w => id (worker w)) ws).
Proof.
  intro V. apply validate_thread_cnt in V.
  assert (H : secrets <> []) by (intros ->; cbn in V; lia).
  rewrite (start_workers_spec config secrets workers H).
  set (n := Z.to_nat (thread_cnt config)).
  exists (map (new_worker config secrets) (seq 0 n)).
  split; [reflexivity|]. split; [rewrite length_map, length_seq; lia|].
  split.
  - intros k w Hw. apply new_workers_nth in Hw. destruct Hw as [Hk ->].
    destruct (nth_error secrets k) as [key|] eqn:E.
    + exists key. cbn [new_worker worker secret]. now rewrite E.
    + apply nth_error_None in E. lia.
  - rewrite map_map. cbn [new_worker worker id].
    generalize (seq_NoDup n 0). generalize (seq 0 n) as l.
    induction l as [|a l IH]; intro ND; cbn [map]; constructor.
    + intro I. apply in_map_iff in I. destruct I as (b & E & I).
      assert (b = a) by lia. subst b.
      apply NoDup_cons_iff in ND. tauto.
    + apply IH. apply NoDup_cons_iff in ND. tauto.
Qed.

Lemma accepted_count_gives_keyed_workers_witness :
  exists ws,
    start_workers three_threads (one_key ++ one_key ++ one_key) []
    = Started ([] ++ ws)
    /\ (0 < List.length ws <= 3)%nat.
Proof.
  destruct (accepted_count_gives_keyed_workers three_threads
              (one_key ++ one_key ++ one_key) [])
    as (ws & A & B & _).
  - reflexivity.
  - exists ws. split; [exact A|exact B].
Defined.

(* ------------------------------------------------------------------ *)
(** *** Waiting for the workers *)
(* ------------------------------------------------------------------ *)

Lemma count_log_app (l l' : list LogLine) :
  List.length (filter is_verdict (l ++ l'))
  = (List.length (filter is_verdict l)
     + List.length (filter is_verdict l'))%nat.
Proof. now rewrite filter_app, length_app. Qed.

Lemma listener_log_no_verdict (i : Z) (ev : WorkerEvent) :
  List.length (filter is_verdict (listener_log i ev)) = 0%nat.
Proof. destruct ev; reflexivity. Qed.

Lemma set_promise_labels (k : nat) (i : Z) (p p' : Promise)
  (l : list (Z * Promise)) :
  nth_error l k = Some (i, p) ->
  map fst (set_promise k (i, p') l) = map fst l.
Proof.
  revert k. induction l as [|y l IH]; intros [|k] H; try discriminate.
  - injection H as ->. reflexivity.
  - cbn [set_promise map]. f_equal. now apply IH.
Qed.

Lemma deliver_labels (k : nat) (ev : WorkerEvent) (w : Waiting) :
  labels (deliver k ev w) = labels w.
Proof.
  unfold deliver, labels.
  destruct (nth_error (promises w) k) as [[i p]|] eqn:N; [|reflexivity].
  cbv zeta.
  pose proof (set_promise_labels k i p (worker_promise i p ev) _ N) as E.
  destruct (all w); [|exact E|exact E].
  destruct p; [|exact E|exact E].
  destruct (worker_promise i Pending ev); [exact E| |exact E].
  destruct (forallb is_fulfilled _); exact E.
Qed.

Lemma heard_one (k : nat) (ev : WorkerEvent) (w : Waiting) :
  match nth_error (labels w) k with
  | Some i => listener_log i ev
  | None => []
  end
  = match nth_error (promises w) k with
    | Some (i, _) => listener_log i ev
    | None => []
    end.
Proof.
  unfold labels. rewrite nth_error_map.
  destruct (nth_error (promises w) k) as [[i p]|]; reflexivity.
Qed.

Lemma deliver_settled (k : nat) (ev : WorkerEvent) (w : Waiting) :
  all w <> Pending ->
  all (deliver k ev w) = all w
  /\ rl_closed (deliver k ev w) = rl_closed w
  /\ log (deliver k ev w) = log w ++ heard (labels w) [(k, ev)].
Proof.
  intro H. cbn [heard]. rewrite app_nil_r, heard_one. unfold deliver.
  destruct (nth_error (promises w) k) as [[i p]|];
    [|now rewrite app_nil_r].
  cbv zeta. destruct (all w) eqn:A; [congruence| |];
    (split; [reflexivity|]; split; reflexivity).
Qed.

Lemma deliver_all_settled (timeline : list (nat * WorkerEvent))
  (w : Waiting) :
  all w <> Pending ->
  all (deliver_all timeline w) = all w
  /\ rl_closed (deliver_all timeline w) = rl_closed w
  /\ log (deliver_all timeline w) = log w ++ heard (labels w) timeline.
Proof.
  revert w. induction timeline as [|[k ev] tl IH]; intros w H;
    cbn [deliver_all].
  - cbn [heard]. now rewrite app_nil_r.
  - destruct (deliver_settled k ev w H) as (A & B & C).
    destruct (IH (deliver k ev w)) as (A' & B' & C'); [congruence|].
    split; [congruence|]. split; [congruence|].
    rewrite C', C, deliver_labels. cbn [heard].
    now rewrite app_nil_r, <- app_assoc.
Qed.

Lemma heard_no_verdict (ids : list Z) (timeline : list (nat * WorkerEvent)) :
  filter is_verdict (heard ids timeline) = [].
Proof.
  induction timeline as [|[k ev] tl IH]; cbn [heard]; [reflexivity|].
  rewrite filter_app, IH, app_nil_r.
  destruct (nth_error ids k) as [i|]; [|reflexivity].
  destruct ev; reflexivity.
Qed.

(** [Promise.all] settles once: after the verdict of [wait_for_workers],
    no later message, exit or error of any worker changes it or closes the
    readline; the log grows by exactly what the listeners of the workers
    log for these events (every message, every error, nothing for an
    exit), so that no second verdict is logged. *)
Theorem verdict_is_final (timeline : list (nat * WorkerEvent))
  (w : Waiting) :
  all w <> Pending ->
  all (deliver_all timeline w) = all w
  /\ rl_closed (deliver_all timeline w) = rl_closed w
  /\ log (deliver_all timeline w) = log w ++ heard (labels w) timeline
  /\ filter is_verdict (heard (labels w) timeline) = [].
Proof.
  intro H. destruct (deliver_all_settled timeline w H) as (A & B & C).
  split; [exact A|]. split; [exact B|]. split; [exact C|].
  apply heard_no_verdict.
Qed.

Lemma verdict_is_final_witness :
  log (deliver_all [(0%nat, OnExit 0); (1%nat, OnError "boom")]
         (deliver 1 (OnExit 1) (wait_for_workers two_pending)))
  = [OneFailed (StoppedWithCode 1 1); WorkerFailed 1 "boom"].
Proof.
  refine (proj1 (proj2 (proj2
            (verdict_is_final [(0%nat, OnExit 0); (1%nat, OnError "boom")]
               (deliver 1 (OnExit 1) (wait_for_workers two_pending)) _)))).
  discriminate.
Defined.

(** The first event that rejects the promise of a worker while
    [Promise.all] is pending decides the verdict: an error rejects with
    no reason, an exit with a code other than 0 with that code under the
    index of the iteration that started the worker; [wait_for_workers]
    logs what the listener of the event logs, then that one failure, does
    not close the readline, and after that only what the listeners log. *)
Theorem first_failure_is_reported (k : nat) (i : Z) (ev : WorkerEvent)
  (post : list (nat * WorkerEvent)) (w : Waiting) :
  all w = Pending -> nth_error (promises w) k = Some (i, Pending) ->
  failing ev = true ->
  exists r,
    match ev with
    | OnMessage _ => False
    | OnError _ => r = NoReason
    | OnExit code => code <> 0 /\ r = StoppedWithCode i code
    end
    /\ all (deliver_all ((k, ev) :: post) w) = Rejected r
    /\ rl_closed (deliver_all ((k, ev) :: post) w) = rl_closed w
    /\ log (deliver_all ((k, ev) :: post) w)
       = log w ++ listener_log i ev ++ [OneFailed r]
         ++ heard (labels w) post.
Proof.
  intros A N F.
  assert (R : exists r,
             worker_promise i Pending ev = Rejected r
             /\ match ev with
                | OnMessage _ => False
                | OnError _ => r = NoReason
                | OnExit code => code <> 0 /\ r = StoppedWithCode i code
                end).
  { destruct ev as [msg|err|code]; cbn [failing] in F;
      cbn [worker_promise]; [discriminate|eauto|].
    destruct (Z.eqb_spec code 0) as [|Hc]; [discriminate|]. eauto. }
  destruct R as (r & Er & Hr). exists r. split; [exact Hr|].
  cbn [deliver_all].
  assert (D : deliver k ev w
              = mkWaiting (set_promise k (i, Rejected r) (promises w))
                  (Rejected r)
                  ((log w ++ listener_log i ev) ++ [OneFailed r])
                  (rl_closed w)).
  { unfold deliver. rewrite N. cbv zeta. rewrite A, Er. reflexivity. }
  destruct (deliver_all_settled post (deliver k ev w)) as (A' & B' & C');
    [rewrite D; discriminate|].
  rewrite A', B', C', deliver_labels, D. cbn [all rl_closed log].
  split; [reflexivity|]. split; [reflexivity|].
  now rewrite <- !app_assoc.
Qed.

Lemma first_failure_is_reported_witness :
  exists r,
    (3 <> 0 /\ r = StoppedWithCode 1 3)
    /\ all (deliver_all [(1%nat, OnExit 3); (0%nat, OnExit 0)]
              (wait_for_workers two_pending))
       = Rejected r.
Proof.
  destruct (first_failure_is_reported 1 1 (OnExit 3) [(0%nat, OnExit 0)]
              (wait_for_workers two_pending))
    as (r & Hr & A & _).
  - reflexivity.
  - reflexivity.
  - reflexivity.
  - exists r. split; [exact Hr|exact A].
Defined.

(** The invariant of the wait. *)
Definition consistent (w : Waiting) : Prop :=
  rl_closed w = forallb is_fulfilled (promises w)
  /\ (all w = Fulfilled <-> forallb is_fulfilled (promises w) = true)
  /\ (all w = Pending <->
      forallb is_fulfilled (promises w) = false
      /\ existsb is_rejected (promises w) = false)
  /\ verdicts w = match all w with Pending => 0%nat | _ => 1%nat end.

Lemma set_promise_split (k : nat) (x y : Z * Promise)
  (l : list (Z * Promise)) :
  nth_error l k = Some y ->
  exists l1 l2, l = l1 ++ y :: l2 /\ set_promise k x l = l1 ++ x :: l2.
Proof.
  revert k. induction l as [|a l IH]; intros [|k]; cbn; try discriminate.
  - intros [= ->]. now exists [], l.
  - intro H. destruct (IH k H) as (l1 & l2 & -> & E).
    exists (a :: l1), l2. cbn. now rewrite E.
Qed.

Lemma first_rejected_existsb (ps : list (Z * Promise)) :
  match first_rejected ps with
  | Some _ => existsb is_rejected ps = true
  | None => existsb is_rejected ps = false
  end.
Proof.
  induction ps as [|[i [| |r]] ps IH]; cbn; auto.
Qed.

Lemma rejected_not_fulfilled (ps : list (Z * Promise)) :
  existsb is_rejected ps = true -> forallb is_fulfilled ps = false.
Proof.
  induction ps as [|[i [| |r]] ps IH]; cbn; auto.
Qed.

Lemma wait_consistent (ps : list (Z * Promise)) :
  consistent (wait_for_workers ps).
Proof.
  unfold wait_for_workers, consistent.
  pose proof (first_rejected_existsb ps) as H.
  destruct (first_rejected ps) as [r|].
  - cbn [all promises rl_closed]. rewrite (rejected_not_fulfilled ps H), H.
    split; [reflexivity|]. split; [split; discriminate|].
    split; [split; [discriminate|intros [_ X]; discriminate X]|reflexivity].
  - destruct (forallb is_fulfilled ps) eqn:Fa;
      cbn [all promises rl_closed]; rewrite Fa, H;
      (split; [reflexivity|]).
    + split; [tauto|].
      split; [split; [discriminate|intros [X _]; discriminate X]|reflexivity].
    + split; [split; discriminate|]. split; [tauto|reflexivity].
Qed.

Lemma deliver_consistent (k : nat) (ev : WorkerEvent) (w : Waiting) :
  consistent w -> consistent (deliver k ev w).
Proof.
  intros (C1 & C2 & C3 & C4). unfold deliver.
  destruct (nth_error (promises w) k) as [[i p]|] eqn:N;
    [|exact (conj C1 (conj C2 (conj C3 C4)))].
  cbv zeta.
  destruct (set_promise_split k (i, worker_promise i p ev) _ _ N)
    as (l1 & l2 & E & ->).
  rewrite E in C1, C2, C3. clear E N.
  pose proof C2 as K2. pose proof C3 as K3.
  rewrite forallb_app in C1, C2, C3. rewrite existsb_app in C3.
  assert (V0 : forall a c,
             verdicts (mkWaiting (l1 ++ (i, worker_promise i p ev) :: l2) a
                         (log w ++ listener_log i ev) c)
             = verdicts w).
  { intros a c. unfold verdicts. cbn [log].
    rewrite !count_log_app, listener_log_no_verdict. lia. }
  destruct (all w) eqn:A.
  - (* [Promise.all] is pending *)
    destruct C3 as [C3 _]. destruct (C3 eq_refl) as [F X]. clear C3.
    destruct p as [| |r0];
      cbn [forallb existsb is_fulfilled is_rejected snd] in C1, F, X.
    + destruct (worker_promise i Pending ev) as [| |r] eqn:W.
      * unfold consistent. cbn [all promises rl_closed].
        rewrite V0, forallb_app, existsb_app.
        cbn [forallb existsb is_fulfilled is_rejected snd].
        rewrite C1, F, X.
        split; [reflexivity|]. split; [split; discriminate|].
        split; [tauto|exact C4].
      * destruct (forallb is_fulfilled (l1 ++ (i, Fulfilled) :: l2)) eqn:Fa;
          unfold consistent; cbn [all promises rl_closed];
          rewrite Fa, existsb_app;
          cbn [existsb is_rejected snd]; rewrite X.
        -- split; [reflexivity|]. split; [tauto|].
           split; [split; [discriminate|intros [Y _]; discriminate Y]|].
           unfold verdicts. cbn [log].
           rewrite !count_log_app, listener_log_no_verdict.
           unfold verdicts in C4. rewrite C4. reflexivity.
        -- rewrite V0. split; [congruence|].
           split; [split; discriminate|]. split; [tauto|exact C4].
      * unfold consistent. cbn [all promises rl_closed].
        rewrite forallb_app, existsb_app.
        cbn [forallb existsb is_fulfilled is_rejected snd].
        rewrite Bool.andb_false_r, Bool.orb_true_r.
        split; [congruence|]. split; [split; discriminate|].
        split; [split; [discriminate|intros [_ Y]; discriminate Y]|].
        unfold verdicts. cbn [log].
        rewrite !count_log_app, listener_log_no_verdict.
        unfold verdicts in C4. rewrite C4. reflexivity.
    + unfold consistent. cbn [all promises rl_closed].
      rewrite V0, forallb_app, existsb_app.
      cbn [worker_promise forallb existsb is_fulfilled is_rejected snd].
      rewrite C1, F, X.
      split; [reflexivity|]. split; [split; discriminate|].
      split; [tauto|exact C4].
    + exfalso. rewrite Bool.orb_true_r in X. discriminate X.
  - (* fulfilled *)
    destruct C2 as [C2 _]. specialize (C2 eq_refl).
    destruct p as [| |r0];
      cbn [forallb is_fulfilled snd andb] in C1, C2;
      try (rewrite Bool.andb_false_r in C2; discriminate C2).
    unfold consistent. cbn [all promises rl_closed].
    rewrite V0, forallb_app.
    cbn [worker_promise forallb is_fulfilled snd andb].
    rewrite C1, C2. split; [reflexivity|]. split; [tauto|].
    split; [split; [discriminate|intros [Y _]; discriminate Y]|exact C4].
  - (* rejected *)
    assert (Y2 : existsb is_rejected
                   (l1 ++ (i, worker_promise i p ev) :: l2) = true).
    { assert (X : existsb is_rejected (l1 ++ (i, p) :: l2) = true).
      { destruct (existsb is_rejected (l1 ++ (i, p) :: l2)) eqn:X;
          [reflexivity|].
        destruct (forallb is_fulfilled (l1 ++ (i, p) :: l2)) eqn:F.
        - destruct K2 as [_ K2]. discriminate (K2 eq_refl).
        - destruct K3 as [_ K3]. discriminate (K3 (conj eq_refl eq_refl)). }
      rewrite existsb_app in X |- *. cbn [existsb] in X |- *.
      apply Bool.orb_true_iff in X. destruct X as [X|X];
        [rewrite X; reflexivity|].
      apply Bool.orb_true_iff in X. destruct X as [X|X].
      - destruct p as [| |r0]; try discriminate X.
        cbn. apply Bool.orb_true_r.
      - rewrite X, !Bool.orb_true_r. reflexivity. }
    pose proof (rejected_not_fulfilled _ Y2) as Y1.
    unfold consistent. cbn [all promises rl_closed].
    rewrite V0, Y1, Y2.
    split; [rewrite C1; rewrite <- forallb_app;
            destruct (forallb is_fulfilled (l1 ++ (i, p) :: l2)) eqn:F;
            [destruct K2 as [_ K2]; discriminate (K2 eq_refl)|reflexivity]|].
    split; [split; discriminate|].
    split; [split; [discriminate|intros [_ Z0]; discriminate Z0]|exact C4].
Qed.

Lemma run_consistent (timeline : list (nat * WorkerEvent)) (w : Waiting) :
  consistent w -> consistent (deliver_all timeline w).
Proof.
  revert w. induction timeline as [|[k ev] tl IH]; intros w H;
    cbn [deliver_all]; [exact H|].
  apply IH, deliver_consistent, H.
Qed.

(** Whatever the workers do and in whatever order, [wait_for_workers]
    has closed the readline exactly when every worker has exited with
    code 0, it has logged one verdict once [Promise.all] is settled and
    none before, and [Promise.all] stays pending exactly as long as no
    promise is rejected and one is not fulfilled. *)
Theorem readline_closes_iff_all_exit_cleanly
  (timeline : list (nat * WorkerEvent)) (ps : list (Z * Promise)) :
  rl_closed (deliver_all timeline (wait_for_workers ps))
  = forallb is_fulfilled
      (promises (deliver_all timeline (wait_for_workers ps)))
  /\ verdicts (deliver_all timeline (wait_for_workers ps))
     = match all (deliver_all timeline (wait_for_workers ps)) with
       | Pending => 0%nat
       | _ => 1%nat
       end
  /\ (all (deliver_all timeline (wait_for_workers ps)) = Pending <->
      forallb is_fulfilled
        (promises (deliver_all timeline (wait_for_workers ps))) = false
      /\ existsb is_rejected
           (promises (deliver_all timeline (wait_for_workers ps))) = false).
Proof.
  destruct (run_consistent timeline _ (wait_consistent ps))
    as (C1 & _ & C3 & C4).
  split; [exact C1|]. split; [exact C4|exact C3].
Qed.

End PoolExtra.
